(** * Orka builder steps: create/deploy the builder VM, create the image

    A shallow embedding of the two multistep steps of the Orka Packer
    builder, [stepOrkaCreate] and [stepCreateImage], and of what the
    specification says about them.

    The steps are sequential Go code over three pieces of mutable state: the
    step struct (the receiver [s]), the state bag shared by the steps, and
    the outside world (the user interface and the HTTP API).  They are
    embedded in a small state monad over a [World] record that holds all
    three; a Go panic (failed type assertion, nil dereference) is a result of
    its own, so that a run that crashes is told apart from one that
    returns. *)

From Stdlib Require Import ZArith String Ascii List Lia.
From stdpp Require Import base option list gmap strings.

Local Open Scope Z_scope.
Local Open Scope string_scope.
Local Open Scope list_scope.

(** ** Data *)

(** The fields of [Config] the two steps read. *)
Record Config := {
  OrkaEndpoint : string;
  OrkaUser : string;
  OrkaPassword : string;
  SourceImage : string;
  ImageName : string;
  OrkaVMBuilderName : string;
  OrkaVMCPUCore : Z;
  ImagePrecopy : bool;
  NoCreateImage : bool;
  NoDeleteVM : bool
}.

Record stepOrkaCreate := {
  failed : bool;
  precopyFailed : bool
}.

Record stepCreateImage := {
  ci_failed : bool
}.

Inductive StepAction := ActionContinue | ActionHalt.

(** What the steps store in the state bag ([interface{}] values): strings
    (token, vmid, ssh_host), an int (ssh_port), an error, and the booleans
    the runner stores under its "cancelled" and "halted" keys. *)
Inductive Value :=
| VString (s : string)
| VInt (n : Z)
| VError (e : string)
| VBool (b : bool).

Inductive UiMsg :=
| UiSay (msg : string)
| UiError (msg : string).

(** Modelled from the spec: the request structs are declared outside the two
    step files; the steps build them with positional literals, so only the
    order of their fields shows.  The field meanings follow the table of
    calls of the specification (login [{user, password}], copy
    [{sourceImage, destImage}], commit [{vmId}], save [{vmId, imageName}],
    delete [{imageName}], purge and deploy [{name}]); [VMCreateRequest] is
    built with named fields in the step. *)
Inductive RequestData :=
| TokenLoginRequest (user password : string)
| ImageCopyRequest (sourceImage destImage : string)
| VMCreateRequest (OrkaVMName OrkaVMImage OrkaImage : string)
                  (OrkaCPUCore VCPUCount : Z)
| VMDeployRequest (name : string)
| ImageCommitRequest (vmId : string)
| ImageSaveRequest (vmId imageName : string)
| ImageDeleteRequest (imageName : string)
| VMPurgeRequest (name : string).

(** An [http.Request]: method, URL, the headers in the order they were set,
    and the struct that was marshalled into the body. *)
Record Request := {
  Method : string;
  URL : string;
  Header : list (string * string);
  ReqBody : RequestData
}.

(** An [http.Response], as far as the steps look at it. *)
Record Response := {
  StatusCode : Z;
  Status : string;
  Body : string
}.

(** The pair [(resp, err)] that [client.Do] returns.  [err == nil] comes with
    a response; a transport failure (connection refused, timeout, ...) comes
    with a nil response; the one case of both being non-nil is a failed
    redirect policy. *)
Inductive DoResult :=
| DoOk (resp : Response)
| DoErr (err : string)
| DoErrResp (err : string) (resp : Response).

Definition do_resp (r : DoResult) : option Response :=
  match r with
  | DoOk resp => Some resp
  | DoErr _ => None
  | DoErrResp _ resp => Some resp
  end.

Definition do_err (r : DoResult) : option string :=
  match r with
  | DoOk _ => None
  | DoErr err => Some err
  | DoErrResp err _ => Some err
  end.

(** Modelled from the spec: the response structs are declared outside the two
    step files; these are the fields the steps read from them (the deploy
    response yields [{vmId, ip, sshPort}], the login response a token). *)
Record TokenLoginResponse := { Token : string }.
Record VMDeployResponse := { VMId : string; IP : string; SSHPort : string }.
Record ImageCommitResponse := { CommitMessage : string }.
Record ImageSaveResponse := { SaveMessage : string }.

(** ** The world and the monad of the steps *)

Record World := {
  orkaCreate : stepOrkaCreate;        (* the receiver of stepOrkaCreate *)
  createImage : stepCreateImage;      (* the receiver of stepCreateImage *)
  bag : gmap string Value;            (* multistep.StateBag *)
  ui : list UiMsg;                    (* what ui.Say / ui.Error printed *)
  trace : list (Request * DoResult)   (* the calls of client.Do, in order *)
}.

Inductive Res (A : Type) :=
| Done (a : A)
| Panic (msg : string).
Arguments Done {A} a.
Arguments Panic {A} msg.

Definition M (A : Type) : Type := World -> Res A * World.

#[export] Instance M_ret : MRet M := fun A a w => (Done a, w).

#[export] Instance M_bind : MBind M := fun A B f m w =>
  match m w with
  | (Done a, w') => f a w'
  | (Panic msg, w') => (Panic msg, w')
  end.

Definition panic {A} (msg : string) : M A := fun w => (Panic msg, w).

Definition with_ui (f : list UiMsg -> list UiMsg) (w : World) : World :=
  {| orkaCreate := orkaCreate w; createImage := createImage w;
     bag := bag w; ui := f (ui w); trace := trace w |}.

Definition with_bag (f : gmap string Value -> gmap string Value) (w : World)
  : World :=
  {| orkaCreate := orkaCreate w; createImage := createImage w;
     bag := f (bag w); ui := ui w; trace := trace w |}.

Definition with_orkaCreate (f : stepOrkaCreate -> stepOrkaCreate) (w : World)
  : World :=
  {| orkaCreate := f (orkaCreate w); createImage := createImage w;
     bag := bag w; ui := ui w; trace := trace w |}.

Definition with_trace (f : list (Request * DoResult) ->
                           list (Request * DoResult)) (w : World) : World :=
  {| orkaCreate := orkaCreate w; createImage := createImage w;
     bag := bag w; ui := ui w; trace := f (trace w) |}.

(** [ui.Say], [ui.Error] *)
Definition ui_Say (msg : string) : M unit :=
  fun w => (Done tt, with_ui (fun l => l ++ [UiSay msg]) w).

Definition ui_Error (msg : string) : M unit :=
  fun w => (Done tt, with_ui (fun l => l ++ [UiError msg]) w).

(** [state.Put] *)
Definition state_Put (key : string) (v : Value) : M unit :=
  fun w => (Done tt, with_bag (insert key v) w).

(** [state.Get(key).(string)]: [Get] gives nil for a missing key, and the
    unchecked assertion panics on nil and on any value that is no string. *)
Definition state_Get_string (key : string) : M string :=
  fun w =>
    match bag w !! key with
    | Some (VString s) => (Done s, w)
    | Some _ => (Panic ("interface conversion: interface {} is not string ["
                          +:+ key +:+ "]"), w)
    | None => (Panic ("interface conversion: interface {} is nil, not string ["
                        +:+ key +:+ "]"), w)
    end.

(** [_, ok := state.GetOk(key)] *)
Definition state_GetOk (key : string) : M bool :=
  fun w => (Done (bool_decide (is_Some (bag w !! key))), w).

(** [s.failed = b], [s.precopyFailed = b] on the receiver of stepOrkaCreate *)
Definition set_failed (b : bool) : M unit :=
  fun w => (Done tt,
            with_orkaCreate
              (fun s => {| failed := b; precopyFailed := precopyFailed s |}) w).

Definition set_precopyFailed (b : bool) : M unit :=
  fun w => (Done tt,
            with_orkaCreate
              (fun s => {| failed := failed s; precopyFailed := b |}) w).

Definition get_failed : M bool :=
  fun w => (Done (failed (orkaCreate w)), w).

(** Reading a field of a [*http.Response]: a nil pointer panics. *)
Definition deref (r : option Response) : M Response :=
  match r with
  | Some resp => mret resp
  | None => panic "invalid memory address or nil pointer dereference"
  end.

(** The value of a request: what [http.NewRequest] builds when the URL
    parses, and what a [req.Header.Set] then makes of it.  Whether the
    request is built at all is decided in [NewRequest_Header_Set] below. *)
Definition MethodPost : string := "POST".
Definition MethodDelete : string := "DELETE".

Definition parsed_request (method url : string) (data : RequestData)
  : Request :=
  {| Method := method; URL := url; Header := []; ReqBody := data |}.

Definition set_header (req : Request) (k v : string) : Request :=
  {| Method := Method req; URL := URL req;
     Header := Header req ++ [(k, v)]; ReqBody := ReqBody req |}.

(** [fmt.Sprintf("%s/%s", endpoint, path)] *)
Definition endpoint_path (config : Config) (path : string) : string :=
  OrkaEndpoint config +:+ "/" +:+ path.

(** [fmt.Sprintf("%s [%s]", a, b)] *)
Definition bracket (a b : string) : string := a +:+ " [" +:+ b +:+ "]".

Definition json_request (method : string) (config : Config) (path : string)
    (data : RequestData) : Request :=
  set_header (parsed_request method (endpoint_path config path) data)
             "Content-Type" "application/json".

Definition bearer_request (method : string) (config : Config) (path : string)
    (data : RequestData) (token : string) : Request :=
  set_header (json_request method config path data)
             "Authorization" ("Bearer " +:+ token).

(** ** strconv.Atoi (64-bit int)

    [Atoi] has a fast path for strings of 1 to 18 bytes, which cannot
    overflow, and falls back on [ParseInt(s, 10, 0)] for the others.
    [ParseUint] reads the digits from the left in a uint64 and returns the
    range error at the first overflow, without reading the rest of the
    string; a byte that is no digit, met before that, is a syntax error. *)

Inductive NumError := ErrSyntax | ErrRange.

Definition is_digit (c : ascii) : bool :=
  ((48 <=? Z.of_nat (nat_of_ascii c)) && (Z.of_nat (nat_of_ascii c) <=? 57))%Z.

(** The loop of the fast path: [n = n*10 + int(ch)], [None] at a byte that
    is no digit. *)
Fixpoint digits_value (acc : Z) (s : string) : option Z :=
  match s with
  | EmptyString => Some acc
  | String c rest =>
      if is_digit c
      then digits_value (10 * acc + (Z.of_nat (nat_of_ascii c) - 48))%Z rest
      else None
  end.

Definition maxUint64 : Z := (2 ^ 64 - 1)%Z.

(** The loop of [ParseUint] for base 10 and 64 bits; [n] is a uint64. *)
Fixpoint ParseUint_digits (n : Z) (s : string) : Z * option NumError :=
  match s with
  | EmptyString => (n, None)
  | String c rest =>
      if is_digit c then
        let d := (Z.of_nat (nat_of_ascii c) - 48)%Z in
        if (maxUint64 / 10 + 1 <=? n)%Z then
          (* n*base overflows *)
          (maxUint64, Some ErrRange)
        else
          let n := (n * 10)%Z in
          let n1 := ((n + d) mod 2 ^ 64)%Z in
          if (n1 <? n)%Z || (maxUint64 <? n1)%Z then
            (* n+d overflows *)
            (maxUint64, Some ErrRange)
          else ParseUint_digits n1 rest
      else (0%Z, Some ErrSyntax)
  end.

Definition ParseUint (s : string) : Z * option NumError :=
  match s with
  | EmptyString => (0%Z, Some ErrSyntax)
  | _ => ParseUint_digits 0 s
  end.

(** A leading sign is cut off: whether it was a minus, and the rest. *)
Definition cut_sign (s : string) : bool * string :=
  match s with
  | String "+" rest => (false, rest)
  | String "-" rest => (true, rest)
  | _ => (false, s)
  end.

Definition ParseInt (s : string) : Z * option NumError :=
  match s with
  | EmptyString => (0%Z, Some ErrSyntax)
  | _ =>
      let '(neg, digits) := cut_sign s in
      match ParseUint digits with
      | (_, Some ErrSyntax) => (0%Z, Some ErrSyntax)
      | (un, _) =>
          if negb neg && (2 ^ 63 <=? un)%Z then
            ((2 ^ 63 - 1)%Z, Some ErrRange)
          else if neg && (2 ^ 63 <? un)%Z then
            ((- 2 ^ 63)%Z, Some ErrRange)
          else ((if neg then - un else un)%Z, None)
      end
  end.

Definition Atoi (s : string) : Z * option NumError :=
  if ((0 <? String.length s) && (String.length s <? 19))%nat then
    (* fast path *)
    let '(neg, digits) := cut_sign s in
    match digits with
    | EmptyString => (0%Z, Some ErrSyntax)
    | _ =>
        match digits_value 0 digits with
        | None => (0%Z, Some ErrSyntax)
        | Some n => ((if neg then - n else n)%Z, None)
        end
    end
  else ParseInt s.

(** ** The two steps

    Every method starts by reading the configuration and the user interface
    from the bag, each with a type assertion.  The builder stores both before
    the first step runs, so these two assertions hold in every run: the
    configuration is the argument [config] of each method, and the user
    interface is the [ui] log of the world.  The other reads of the bag
    (token, vmid) depend on what earlier steps stored and are modelled with
    their panic. *)

Section Steps.

(** The two message constants of the package (declared outside the two
    step files): the prefix of a RequestError and of a ResponseError. *)
Variable OrkaAPIRequestErrorMessage : string.
Variable OrkaAPIResponseErrorMessage : string.

(** [json.Unmarshal] of a response body into each response struct; a body
    that does not parse leaves the zero value. *)
Variable unmarshalTokenLogin : string -> TokenLoginResponse.
Variable unmarshalVMDeploy : string -> VMDeployResponse.
Variable unmarshalImageCommit : string -> ImageCommitResponse.
Variable unmarshalImageSave : string -> ImageSaveResponse.

(** Whether [url.Parse] accepts the URLs that the steps make of an endpoint.
    Each URL is the endpoint, a slash and one of eight constant paths made
    of lowercase letters and slashes, so it is the endpoint that decides. *)
Variable endpoint_parses : string -> bool.

(** The remote API and the network in front of it: what [client.Do]
    returns for a request, given the calls made so far. *)
Variable server : list (Request * DoResult) -> Request -> DoResult.

(** [req, err := http.NewRequest(...)] and the [req.Header.Set(...)] that
    follow it.  When the URL does not parse, NewRequest returns a nil
    request with an error; every caller here drops that error, and the first
    Header.Set panics on the nil request, before any call is made.
    Otherwise the result is the request [req] with its headers. *)
Definition NewRequest_Header_Set (config : Config) (req : Request)
  : M Request :=
  if endpoint_parses (OrkaEndpoint config) then mret req
  else panic "invalid memory address or nil pointer dereference".

(** [client.Do(req)] *)
Definition client_Do (req : Request) : M DoResult :=
  fun w =>
    let r := server (trace w) req in
    (Done r, with_trace (fun t => t ++ [(req, r)]) w).

(** *** The requests, as the steps build them *)

Definition tokenLoginRequest (config : Config) : Request :=
  json_request MethodPost config "token"
    (TokenLoginRequest (OrkaUser config) (OrkaPassword config)).

Definition imageCopyRequest (config : Config) (token : string) : Request :=
  bearer_request MethodPost config "resources/image/copy"
    (ImageCopyRequest (SourceImage config) (ImageName config)) token.

Definition vmCreateConfigRequest (config : Config) (token actualImage : string)
  : Request :=
  bearer_request MethodPost config "resources/vm/create"
    (VMCreateRequest (OrkaVMBuilderName config) actualImage
                     (OrkaVMBuilderName config)
                     (OrkaVMCPUCore config) (OrkaVMCPUCore config)) token.

Definition vmDeployRequest (config : Config) (token : string) : Request :=
  bearer_request MethodPost config "resources/vm/deploy"
    (VMDeployRequest (OrkaVMBuilderName config)) token.

Definition imageDeleteRequest (config : Config) (token : string) : Request :=
  bearer_request MethodDelete config "resources/image/delete"
    (ImageDeleteRequest (OrkaVMBuilderName config)) token.

Definition vmPurgeRequest (config : Config) (token : string) : Request :=
  bearer_request MethodDelete config "resources/vm/purge"
    (VMPurgeRequest (OrkaVMBuilderName config)) token.

Definition imageCommitRequest (config : Config) (vmid token : string)
  : Request :=
  bearer_request MethodPost config "resources/image/commit"
    (ImageCommitRequest vmid) token.

Definition imageSaveRequest (config : Config) (vmid token : string)
  : Request :=
  bearer_request MethodPost config "resources/image/save"
    (ImageSaveRequest vmid (ImageName config)) token.

(** *** stepOrkaCreate *)

(** [createOrkaToken]: the result is the pair [(token, err)]. *)
Definition createOrkaToken (config : Config) : M (string * option string) :=
  req ← NewRequest_Header_Set config (tokenLoginRequest config);
  r ← client_Do req;
  match do_err r with
  | Some err =>
      mret ("", Some ("Error while logging into the Orka API: " +:+ err))
  | None =>
      resp ← deref (do_resp r);
      let respData := unmarshalTokenLogin (Body resp) in
      mret (Token respData, None)
  end.

(** [Run], from "CREATE THE BUILDER VM CONFIGURATION" to its end: the part
    that all three ways through the image selection fall into, with the
    [token] and the [actualImage] they leave. *)
Definition Run_create_deploy (config : Config) (token actualImage : string)
  : M StepAction :=
  ui_Say (bracket "Creating a Builder VM configuration"
                  (OrkaVMBuilderName config));;
  req ← NewRequest_Header_Set config
          (vmCreateConfigRequest config token actualImage);
  r ← client_Do req;
  match do_err r with
  | Some err =>
      ui_Error (bracket OrkaAPIRequestErrorMessage err);;
      mret ActionHalt
  | None =>
      vmCreateConfigResponse ← deref (do_resp r);
      if negb (StatusCode vmCreateConfigResponse =? 201)%Z then
        let e := bracket OrkaAPIResponseErrorMessage
                         (Status vmCreateConfigResponse) in
        ui_Error e;;
        state_Put "error" (VError e);;
        set_failed true;;
        mret ActionHalt
      else
        ui_Say (bracket "Created builder VM configuration"
                        (OrkaVMBuilderName config));;
        ui_Say ("Creating builder VM based on ["
                  +:+ OrkaVMBuilderName config +:+ "] configuration");;
        req ← NewRequest_Header_Set config (vmDeployRequest config token);
        r ← client_Do req;
        (* no check of err: the response is read next *)
        vmDeployResponse ← deref (do_resp r);
        let vmDeployResponseData :=
          unmarshalVMDeploy (Body vmDeployResponse) in
        if negb (StatusCode vmDeployResponse =? 200)%Z then
          state_Put "error"
            (VError ("Error from API while deploying Orka VM: "
                       +:+ Status vmDeployResponse));;
          set_failed true;;
          mret ActionHalt
        else
          state_Put "vmid" (VString (VMId vmDeployResponseData));;
          ui_Say (bracket "Created VM" (VMId vmDeployResponseData));;
          ui_Say ("SSH server will be available at ["
                    +:+ IP vmDeployResponseData +:+ ":"
                    +:+ SSHPort vmDeployResponseData +:+ "]");;
          let sshPort := fst (Atoi (SSHPort vmDeployResponseData)) in
          state_Put "ssh_port" (VInt sshPort);;
          state_Put "ssh_host" (VString (IP vmDeployResponseData));;
          mret ActionContinue
  end.

Definition stepOrkaCreate_Run (config : Config) : M StepAction :=
  ui_Say "Logging into Orka API endpoint";;
  '(token, err) ← createOrkaToken config;
  match err with
  | Some err =>
      ui_Error (bracket OrkaAPIRequestErrorMessage err);;
      state_Put "error" (VError err);;
      set_failed true;;
      mret ActionHalt
  | None =>
      ui_Say "Logged in with token";;
      state_Put "token" (VString token);;
      let actualImage := SourceImage config in
      if ImagePrecopy config then
        if NoCreateImage config then
          ui_Say "Skipping source image pre-copy because of 'no_create_image' being set";;
          Run_create_deploy config token actualImage
        else
          ui_Say ("Pre-copying source image [" +:+ SourceImage config
                    +:+ "] to destination image [" +:+ ImageName config
                    +:+ "]");;
          ui_Say "This can take awhile depending on how big the source image is - please wait...";;
          req ← NewRequest_Header_Set config
                  (imageCopyRequest config token);
          r ← client_Do req;
          match do_err r with
          | Some err =>
              ui_Error (bracket OrkaAPIRequestErrorMessage err);;
              state_Put "error" (VError err);;
              set_failed true;;
              set_precopyFailed true;;
              mret ActionHalt
          | None =>
              imageCopyResponse ← deref (do_resp r);
              if negb (StatusCode imageCopyResponse =? 200)%Z then
                let e := "Error from API: " +:+ Status imageCopyResponse in
                ui_Error e;;
                state_Put "error" (VError e);;
                set_failed true;;
                mret ActionHalt
              else
                ui_Say "Image copied";;
                ui_Say ("Builder VM configuration will use pre-copied base image "
                          +:+ actualImage);;
                let actualImage := ImageName config in
                Run_create_deploy config token actualImage
          end
      else
        ui_Say (bracket "Builder VM configuration will use base image"
                        actualImage);;
        Run_create_deploy config token actualImage
  end.

(** [precopyImageDelete]: the result is the error, [None] for nil. *)
Definition precopyImageDelete (config : Config) : M (option string) :=
  token ← state_Get_string "token";
  req ← NewRequest_Header_Set config (imageDeleteRequest config token);
  r ← client_Do req;
  match do_err r with
  | Some err =>
      let e := bracket OrkaAPIRequestErrorMessage err in
      ui_Error e;;
      state_Put "error" (VError err);;
      mret (Some e)
  | None =>
      imageDeleteResponse ← deref (do_resp r);
      if negb (StatusCode imageDeleteResponse =? 200)%Z then
        let e := bracket "Image could not be deleted"
                         (Status imageDeleteResponse) in
        ui_Error e;;
        mret (Some e)
      else
        ui_Say (bracket "Image deleted" (Status imageDeleteResponse));;
        mret None
  end.

Definition stepOrkaCreate_Cleanup (config : Config) : M unit :=
  token ← state_Get_string "token";
  if NoDeleteVM config then
    ui_Say "We are skipping the deletion of the builder VM and its configuration because of do_not_delete being set.";;
    (if ImagePrecopy config then
       ui_Say ("Pre-copy was performed: image " +:+ ImageName config
                 +:+ " will be left and not removed")
     else mret tt);;
    mret tt
  else
    s_failed ← get_failed;
    if (s_failed : bool) then
      if ImagePrecopy config then
        ui_Say ("Pre-copy was performed: cleaning up pre-copied image "
                  +:+ ImageName config);;
        precopyDeleteFailed ← precopyImageDelete config;
        match precopyDeleteFailed with
        | Some _ => mret tt
        | None =>
            ui_Say "Nothing to cleanup: the builder VM creation, deployment and/or provisioning failed.";;
            mret tt
        end
      else
        ui_Say "Nothing to cleanup: the builder VM creation, deployment and/or provisioning failed.";;
        mret tt
    else
      ui_Say "Removing builder VM and its configuration...";;
      req ← NewRequest_Header_Set config (vmPurgeRequest config token);
      r ← client_Do req;
      (match do_err r with
       | Some err =>
           let e := bracket OrkaAPIRequestErrorMessage err in
           ui_Error e;;
           state_Put "error" (VError err)
       | None => mret tt
       end);;
      vmPurgeResponse ← deref (do_resp r);
      if negb (StatusCode vmPurgeResponse =? 200)%Z then
        ui_Error (bracket OrkaAPIResponseErrorMessage
                          (Status vmPurgeResponse))
      else
        ui_Say "Builder VM and configuration purged".

(** *** stepCreateImage

    The five-minute timeout of its HTTP client is real time and is part of
    what [server] answers (a timeout is a transport error). *)

Definition stepCreateImage_Run (config : Config) : M StepAction :=
  vmid ← state_Get_string "vmid";
  token ← state_Get_string "token";
  if NoCreateImage config then
    ui_Say "Skipping image creation because of 'no_create_image' being set.";;
    mret ActionContinue
  else
    ui_Say (bracket "Image creation is using VM ID" vmid);;
    ui_Say (bracket "Image name is" (ImageName config));;
    ui_Say "Please wait as this can take a little while...";;
    if ImagePrecopy config then
      ui_Say "Committing existing image since pre-copy is being used";;
      req ← NewRequest_Header_Set config
              (imageCommitRequest config vmid token);
      r ← client_Do req;
      match do_err r with
      | Some err =>
          let e := bracket OrkaAPIRequestErrorMessage err in
          ui_Error e;;
          mret ActionHalt
      | None =>
          imageCommitResponse ← deref (do_resp r);
          let imageCommitResponseData :=
            unmarshalImageCommit (Body imageCommitResponse) in
          (if negb (StatusCode imageCommitResponse =? 200)%Z then
             ui_Error (bracket "Error committing image"
                               (Status imageCommitResponse))
           else
             ui_Say ("Image comitted [" +:+ Status imageCommitResponse
                       +:+ "] ["
                       +:+ CommitMessage imageCommitResponseData +:+ "]"));;
          mret ActionContinue
      end
    else
      ui_Say (bracket "Saving new image" (ImageName config));;
      req ← NewRequest_Header_Set config
              (imageSaveRequest config vmid token);
      r ← client_Do req;
      match do_err r with
      | Some err =>
          ui_Error (bracket OrkaAPIRequestErrorMessage err);;
          mret ActionHalt
      | None =>
          imageSaveResponse ← deref (do_resp r);
          let imageSaveResponseData :=
            unmarshalImageSave (Body imageSaveResponse) in
          if negb (StatusCode imageSaveResponse =? 200)%Z then
            ui_Error (bracket OrkaAPIResponseErrorMessage
                              (Status imageSaveResponse));;
            mret ActionHalt
          else
            ui_Say ("Image saved [" +:+ Status imageSaveResponse
                      +:+ "] ["
                      +:+ SaveMessage imageSaveResponseData +:+ "]");;
            mret ActionContinue
      end.

(** [multistep.StateCancelled], [multistep.StateHalted] *)
Definition StateCancelled : string := "cancelled".
Definition StateHalted : string := "halted".

Definition stepCreateImage_Cleanup : M unit :=
  vmid ← state_Get_string "vmid";
  if String.eqb vmid "" then mret tt
  else
    cancelled ← state_GetOk StateCancelled;
    halted ← state_GetOk StateHalted;
    if negb cancelled && negb halted then mret tt
    else ui_Say "Image cleanup complete.".

End Steps.


(** ** Which call a request is *)

Definition is_login (req : Request) : bool :=
  match ReqBody req with TokenLoginRequest _ _ => true | _ => false end.

Definition is_copy (req : Request) : bool :=
  match ReqBody req with ImageCopyRequest _ _ => true | _ => false end.

Definition is_create (req : Request) : bool :=
  match ReqBody req with VMCreateRequest _ _ _ _ _ => true | _ => false end.

Definition is_deploy (req : Request) : bool :=
  match ReqBody req with VMDeployRequest _ => true | _ => false end.

Definition is_save (req : Request) : bool :=
  match ReqBody req with ImageSaveRequest _ _ => true | _ => false end.

Definition is_image_delete (req : Request) : bool :=
  match ReqBody req with ImageDeleteRequest _ => true | _ => false end.

Definition is_purge (req : Request) : bool :=
  match ReqBody req with VMPurgeRequest _ => true | _ => false end.

(** The requests a step issued: those of [w'] that were not yet in [w]. *)
Definition issued (w w' : World) : list Request :=
  map fst (drop (length (trace w)) (trace w')).

Definition is_UiError (m : UiMsg) : bool :=
  match m with UiError _ => true | UiSay _ => false end.

(** ** Sample runs

    A concrete environment in which the steps can be evaluated: two
    configurations, a remote API that answers every call with success, and
    the same API with one call failing. *)

Definition initial_world : World :=
  {| orkaCreate := {| failed := false; precopyFailed := false |};
     createImage := {| ci_failed := false |};
     bag := ∅; ui := []; trace := [] |}.

Definition sample_config (precopy noDelete : bool) : Config :=
  {| OrkaEndpoint := "http://10.221.188.100";
     OrkaUser := "admin@example.org";
     OrkaPassword := "secret";
     SourceImage := "base.img";
     ImageName := "packer.img";
     OrkaVMBuilderName := "packer-builder";
     OrkaVMCPUCore := 3;
     ImagePrecopy := precopy;
     NoCreateImage := false;
     NoDeleteVM := noDelete |}.

Definition sample_RequestErrorMessage : string := "Orka API request error".
Definition sample_ResponseErrorMessage : string := "Orka API response error".

(** Sample decoders: one body is understood by each, any other body leaves
    the zero value of the struct. *)
Definition sample_unmarshalTokenLogin (body : string) : TokenLoginResponse :=
  {| Token := if String.eqb body "login-body" then "tok-1" else "" |}.

Definition sample_unmarshalVMDeploy (body : string) : VMDeployResponse :=
  if String.eqb body "deploy-body"
  then {| VMId := "vm-1"; IP := "10.0.0.5"; SSHPort := "2222" |}
  else {| VMId := ""; IP := ""; SSHPort := "" |}.

Definition sample_unmarshalImageCommit (body : string) : ImageCommitResponse :=
  {| CommitMessage := body |}.

Definition sample_unmarshalImageSave (body : string) : ImageSaveResponse :=
  {| SaveMessage := body |}.

Definition response (code : Z) (status body : string) : DoResult :=
  DoOk {| StatusCode := code; Status := status; Body := body |}.

Definition healthy (req : Request) : DoResult :=
  match ReqBody req with
  | TokenLoginRequest _ _ => response 200 "200 OK" "login-body"
  | VMCreateRequest _ _ _ _ _ => response 201 "201 Created" ""
  | VMDeployRequest _ => response 200 "200 OK" "deploy-body"
  | _ => response 200 "200 OK" ""
  end.

(** The healthy API, but the calls picked by [p] get the result [r]. *)
Definition failing (p : Request -> bool) (r : DoResult)
  : list (Request * DoResult) -> Request -> DoResult :=
  fun _ req => if p req then r else healthy req.

(** A sample [url.Parse]: it rejects an endpoint that starts with a space
    (the scheme is not recognised, and the first path segment then holds a
    colon) and accepts the others. *)
Definition sample_endpoint_parses (endpoint : string) : bool :=
  match endpoint with
  | String " " _ => false
  | _ => true
  end.

Definition sample_Run := stepOrkaCreate_Run
  sample_RequestErrorMessage sample_ResponseErrorMessage
  sample_unmarshalTokenLogin sample_unmarshalVMDeploy sample_endpoint_parses.

Definition sample_Cleanup := stepOrkaCreate_Cleanup
  sample_RequestErrorMessage sample_ResponseErrorMessage
  sample_endpoint_parses.

Definition sample_CreateImage_Run := stepCreateImage_Run
  sample_RequestErrorMessage sample_ResponseErrorMessage
  sample_unmarshalImageCommit sample_unmarshalImageSave
  sample_endpoint_parses.

Definition is_commit (req : Request) : bool :=
  match ReqBody req with ImageCommitRequest _ => true | _ => false end.

(** The failures the sample runs go through. *)
Definition refused : string :=
  "dial tcp 10.221.188.100:80: connect: connection refused".

Definition always_healthy := failing (fun _ => false) (DoErr "").
Definition login_unreachable := failing is_login (DoErr refused).
Definition login_unauthorized := failing is_login
  (response 401 "401 Unauthorized" "").
Definition copy_fails := failing is_copy
  (response 500 "500 Internal Server Error" "").
Definition create_fails := failing is_create
  (response 500 "500 Internal Server Error" "").
Definition deploy_unreachable := failing is_deploy (DoErr refused).
Definition deploy_without_id := failing is_deploy (response 200 "200 OK" "").
Definition commit_fails := failing is_commit
  (response 500 "500 Internal Server Error" "").
Definition save_fails := failing is_save
  (response 500 "500 Internal Server Error" "").
Definition purge_unreachable := failing is_purge (DoErr refused).

(** The world a healthy Create & Deploy run leaves behind. *)
Definition deployed_world (config : Config) : World :=
  snd (sample_Run always_healthy config initial_world).


(** ** The calls of a run, as the configuration fixes them *)

(** Whether the Create & Deploy step pre-copies the source image. *)
Definition precopies (config : Config) : bool :=
  ImagePrecopy config && negb (NoCreateImage config).

(** The image the builder VM is created from. *)
Definition launch_image (config : Config) : string :=
  if precopies config then ImageName config else SourceImage config.

(** What a Create & Deploy run that meets no failure sends, in order. *)
Definition expected_calls (config : Config) : list RequestData :=
  [TokenLoginRequest (OrkaUser config) (OrkaPassword config)] ++
  (if precopies config
   then [ImageCopyRequest (SourceImage config) (ImageName config)]
   else []) ++
  [VMCreateRequest (OrkaVMBuilderName config) (launch_image config)
                   (OrkaVMBuilderName config)
                   (OrkaVMCPUCore config) (OrkaVMCPUCore config);
   VMDeployRequest (OrkaVMBuilderName config)].

Definition json_header : string * string :=
  ("Content-Type", "application/json").

Definition bearer_header (token : string) : string * string :=
  ("Authorization", "Bearer " +:+ token).

(** The keys of the state bag that the Create & Deploy step writes. *)
Definition Run_keys : list string :=
  ["error"; "token"; "vmid"; "ssh_port"; "ssh_host"].

(** More failures for the sample runs, and a configuration that switches
    image creation off. *)
Definition create_unreachable := failing is_create (DoErr refused).
Definition deploy_fails := failing is_deploy
  (response 500 "500 Internal Server Error" "").
Definition image_unreachable :=
  failing (fun req => is_save req || is_commit req) (DoErr refused).

Definition sample_config_no_image : Config :=
  {| OrkaEndpoint := "http://10.221.188.100";
     OrkaUser := "admin@example.org";
     OrkaPassword := "secret";
     SourceImage := "base.img";
     ImageName := "packer.img";
     OrkaVMBuilderName := "packer-builder";
     OrkaVMCPUCore := 3;
     ImagePrecopy := false;
     NoCreateImage := true;
     NoDeleteVM := false |}.

(** A configuration whose endpoint does not parse as a URL. *)
Definition sample_config_bad_endpoint : Config :=
  {| OrkaEndpoint := " http://10.221.188.100";
     OrkaUser := "admin@example.org";
     OrkaPassword := "secret";
     SourceImage := "base.img";
     ImageName := "packer.img";
     OrkaVMBuilderName := "packer-builder";
     OrkaVMCPUCore := 3;
     ImagePrecopy := false;
     NoCreateImage := false;
     NoDeleteVM := false |}.

Definition nil_dereference : string :=
  "invalid memory address or nil pointer dereference".
Definition delete_unreachable := failing is_image_delete (DoErr refused).


(** ** Properties of the steps, for any configuration and any API *)

Section Facts.

Variables ReqMsg RespMsg : string.
Variable uTok : string -> TokenLoginResponse.
Variable uDep : string -> VMDeployResponse.
Variable uCommit : string -> ImageCommitResponse.
Variable uSave : string -> ImageSaveResponse.
Variable endpoint_parses : string -> bool.
Variable server : list (Request * DoResult) -> Request -> DoResult.

Local Abbreviation Run :=
  (stepOrkaCreate_Run ReqMsg RespMsg uTok uDep endpoint_parses server).
Local Abbreviation Cleanup :=
  (stepOrkaCreate_Cleanup ReqMsg RespMsg endpoint_parses server).
Local Abbreviation CreateImage_Run :=
  (stepCreateImage_Run ReqMsg RespMsg uCommit uSave endpoint_parses server).

Ltac unfold_monad :=
  unfold NewRequest_Header_Set, client_Do, ui_Say, ui_Error, state_Put,
    state_Get_string,
    state_GetOk, set_failed, set_precopyFailed, get_failed, deref, panic,
    mbind, M_bind, mret, M_ret in *.

Ltac unfold_steps :=
  unfold stepOrkaCreate_Run, Run_create_deploy, createOrkaToken,
    stepOrkaCreate_Cleanup, precopyImageDelete, stepCreateImage_Run,
    stepCreateImage_Cleanup in *;
  unfold_monad.

(** Case analysis on the next answer of the API, and on a status code. *)
Ltac next_answer :=
  match goal with
  | |- context [server ?t ?r] =>
      let E := fresh "Hanswer" in
      destruct (server t r) as [?resp|?err|?err ?resp] eqn:E; simpl
  end.

Ltac next_status :=
  match goal with
  | |- context [(StatusCode ?r =? ?n)%Z] =>
      let E := fresh "Hstatus" in
      destruct (Z.eqb_spec (StatusCode r) n) as [E|E]; simpl
  end.

(** Every way through a step: the answers of the API, the status codes and
    the flags of the configuration. *)
Ltac all_paths :=
  repeat (first [ next_answer | next_status
                | match goal with
                  | |- context [if ?b then _ else _] => destruct b eqn:?; simpl
                  end ]).

(** *** strconv.Atoi *)

Example Atoi_2222 : Atoi "2222" = (2222%Z, None).
Proof. reflexivity. Qed.

Example Atoi_empty : Atoi "" = (0%Z, Some ErrSyntax).
Proof. reflexivity. Qed.

Example Atoi_sign_only : Atoi "-" = (0%Z, Some ErrSyntax).
Proof. reflexivity. Qed.

Example Atoi_not_a_number : Atoi "22a" = (0%Z, Some ErrSyntax).
Proof. reflexivity. Qed.

Example Atoi_overflow_before_syntax :
  Atoi "99999999999999999999x" = (9223372036854775807%Z, Some ErrRange).
Proof. reflexivity. Qed.

Example Atoi_out_of_range :
  Atoi "9223372036854775808" = (9223372036854775807%Z, Some ErrRange).
Proof. reflexivity. Qed.

(** *** Helpers *)

Lemma issued_snoc w w' c :
  trace w' = trace w ++ [c] -> issued w w' = [fst c].
Proof.
  intros H. unfold issued. rewrite H, drop_app_length. reflexivity.
Qed.

(** The token is asserted to be a string before the cleanup does anything
    else: without one it panics and leaves the world as it was. *)
Lemma Cleanup_without_token config w :
  bag w !! "token" = None ->
  exists msg, Cleanup config w = (Panic msg, w).
Proof.
  intros H. unfold_steps. rewrite H. eauto.
Qed.

(** *** What the failure paths do *)

(** After a failure with pre-copy configured, the cleanup makes one call,
    the image delete, and the image it names is the builder VM name. *)
Lemma Cleanup_failed_precopy config w token :
  endpoint_parses (OrkaEndpoint config) = true ->
  NoDeleteVM config = false ->
  failed (orkaCreate w) = true ->
  ImagePrecopy config = true ->
  bag w !! "token" = Some (VString token) ->
  issued w (snd (Cleanup config w)) = [imageDeleteRequest config token] /\
  ReqBody (imageDeleteRequest config token) =
    ImageDeleteRequest (OrkaVMBuilderName config).
Proof.
  intros Hep Hno Hfailed Hpre Htok. split; [|reflexivity].
  apply issued_snoc with
    (c := (imageDeleteRequest config token,
           server (trace w) (imageDeleteRequest config token))).
  unfold_steps. rewrite Htok, Hno, Hfailed, Hpre. simpl.
  rewrite Htok, Hep. simpl.
  all_paths; reflexivity.
Qed.

(** A failed image copy halts the step with [failed] set; [precopyFailed] is
    set on the transport error only, a status other than 200 leaves it as it
    was. *)
Lemma Run_copy_failure config w resp0 :
  endpoint_parses (OrkaEndpoint config) = true ->
  ImagePrecopy config = true ->
  NoCreateImage config = false ->
  server (trace w) (tokenLoginRequest config) = DoOk resp0 ->
  match server (trace w ++ [(tokenLoginRequest config, DoOk resp0)])
               (imageCopyRequest config (Token (uTok (Body resp0)))) with
  | DoErr _ | DoErrResp _ _ =>
      fst (Run config w) = Done ActionHalt /\
      failed (orkaCreate (snd (Run config w))) = true /\
      precopyFailed (orkaCreate (snd (Run config w))) = true
  | DoOk resp =>
      StatusCode resp <> 200%Z ->
      fst (Run config w) = Done ActionHalt /\
      failed (orkaCreate (snd (Run config w))) = true /\
      precopyFailed (orkaCreate (snd (Run config w))) =
        precopyFailed (orkaCreate w)
  end.
Proof.
  intros Hep Hpre Hno Hlogin.
  unfold_steps. rewrite Hep. simpl. rewrite Hlogin, Hpre, Hno. simpl.
  next_answer; try (repeat split; reflexivity).
  intros Hst. next_status; [contradiction|]. repeat split; reflexivity.
Qed.

(** A purge answered with a status other than 200 is reported, and the
    cleanup returns. *)
Lemma Cleanup_purge_status config w token resp :
  endpoint_parses (OrkaEndpoint config) = true ->
  NoDeleteVM config = false ->
  failed (orkaCreate w) = false ->
  bag w !! "token" = Some (VString token) ->
  server (trace w) (vmPurgeRequest config token) = DoOk resp ->
  StatusCode resp <> 200%Z ->
  fst (Cleanup config w) = Done tt /\
  last (ui (snd (Cleanup config w))) =
    Some (UiError (bracket RespMsg (Status resp))).
Proof.
  intros Hep Hno Hfailed Htok Hdo Hst.
  unfold_steps. rewrite Htok, Hno, Hfailed, Hep. simpl. rewrite Hdo. simpl.
  next_status; [contradiction|]. rewrite last_snoc. split; reflexivity.
Qed.

(** A purge that does not reach the API is reported, and then the cleanup
    reads the status code of the nil response. *)
Lemma Cleanup_purge_transport_error config w token err :
  endpoint_parses (OrkaEndpoint config) = true ->
  NoDeleteVM config = false ->
  failed (orkaCreate w) = false ->
  bag w !! "token" = Some (VString token) ->
  server (trace w) (vmPurgeRequest config token) = DoErr err ->
  fst (Cleanup config w) =
    Panic "invalid memory address or nil pointer dereference" /\
  last (ui (snd (Cleanup config w))) =
    Some (UiError (bracket ReqMsg err)).
Proof.
  intros Hep Hno Hfailed Htok Hdo.
  unfold_steps. rewrite Htok, Hno, Hfailed, Hep. simpl. rewrite Hdo. simpl.
  rewrite last_snoc. split; reflexivity.
Qed.

(** A deploy that does not reach the API: the body of the nil response is
    read at once; no error is reported, none is stored, [failed] stays. *)
Lemma Run_create_deploy_transport_error config token image w resp err :
  endpoint_parses (OrkaEndpoint config) = true ->
  server (trace w) (vmCreateConfigRequest config token image) = DoOk resp ->
  StatusCode resp = 201%Z ->
  server (trace w ++ [(vmCreateConfigRequest config token image, DoOk resp)])
         (vmDeployRequest config token) = DoErr err ->
  let out :=
    Run_create_deploy ReqMsg RespMsg uDep endpoint_parses server config token
                      image w in
  fst out = Panic "invalid memory address or nil pointer dereference" /\
  List.filter is_UiError (ui (snd out)) = List.filter is_UiError (ui w) /\
  bag (snd out) = bag w /\
  orkaCreate (snd out) = orkaCreate w.
Proof.
  intros Hep Hcreate Hst Hdeploy.
  unfold_steps. rewrite Hep. simpl. rewrite Hcreate. simpl.
  rewrite Hst. simpl. rewrite Hdeploy. simpl.
  repeat split.
  rewrite !List.filter_app. simpl. rewrite !app_nil_r. reflexivity.
Qed.

(** *** Authenticate *)

(** C5 (as amended): every run whose endpoint parses as a URL makes exactly
    one login call, the first call of the step.  If that call returns an
    error (transport failure), the
    step makes no further call, halts, sets [failed] and stores the error.
    If it returns a response, whatever its status code, the token parsed
    from the body is stored under "token" and the step goes on to its next
    call. *)
Theorem C5_login_once_status_not_checked config w :
  endpoint_parses (OrkaEndpoint config) = true ->
  exists rest,
    trace (snd (Run config w)) =
      trace w ++
      (tokenLoginRequest config, server (trace w) (tokenLoginRequest config))
      :: rest /\
    Forall (fun c => is_login (fst c) = false) rest /\
    match server (trace w) (tokenLoginRequest config) with
    | DoOk resp =>
        bag (snd (Run config w)) !! "token" =
          Some (VString (Token (uTok (Body resp)))) /\
        rest <> []
    | DoErr err | DoErrResp err _ =>
        rest = [] /\
        fst (Run config w) = Done ActionHalt /\
        failed (orkaCreate (snd (Run config w))) = true /\
        bag (snd (Run config w)) !! "error" =
          Some (VError ("Error while logging into the Orka API: " +:+ err))
    end.
Proof.
  intros Hep. unfold_steps. rewrite Hep. simpl.
  all_paths.
  all: rewrite <- ?app_assoc; simpl.
  all: eexists; split; [reflexivity|].
  all: split; [repeat constructor|].
  all: repeat split; try discriminate; by simplify_map_eq.
Qed.

(** *** The identifier of the deployed VM *)

(** C6 (as amended): "vmid" is written by the Create & Deploy step only, and
    only after a deploy response with status 200: either the step leaves it
    as it was, or its last call was the deploy, answered with status 200, the
    step continues, and "vmid" holds the identifier parsed from that
    response (whatever it is, the empty string included).  The cleanup of
    Create & Deploy never reads "vmid": its result, its messages and its
    calls are the same whatever is stored there.  The cleanup of Create
    Image reads it and returns at once, with nothing said, when it is
    empty. *)
Theorem C6_vmid_written_by_deploy_only config w (o : option Value) :
  (bag (snd (Run config w)) !! "vmid" = bag w !! "vmid" \/
   exists req r resp,
     last (trace (snd (Run config w))) = Some (req, r) /\
     is_deploy req = true /\
     do_resp r = Some resp /\
     StatusCode resp = 200%Z /\
     fst (Run config w) = Done ActionContinue /\
     bag (snd (Run config w)) !! "vmid" =
       Some (VString (VMId (uDep (Body resp))))) /\
  (let w_o := with_bag (partial_alter (fun _ => o) "vmid") w in
   fst (Cleanup config w_o) = fst (Cleanup config w) /\
   ui (snd (Cleanup config w_o)) = ui (snd (Cleanup config w)) /\
   trace (snd (Cleanup config w_o)) = trace (snd (Cleanup config w))) /\
  (let w_e := with_bag (insert "vmid" (VString "")) w in
   stepCreateImage_Cleanup w_e = (Done tt, w_e)).
Proof.
  split; [|split].
  - unfold_steps. simpl. all_paths.
    all: try (left; by simplify_map_eq).
    all: right; do 3 eexists; rewrite last_snoc.
    all: repeat split; try reflexivity; try eassumption; by simplify_map_eq.
  - unfold_steps. simpl.
    rewrite lookup_partial_alter_ne by discriminate.
    destruct (bag w !! "token") as [[tok| | |]|] eqn:Htok; simpl;
      try (repeat split; reflexivity).
    repeat (all_paths;
            rewrite ?lookup_partial_alter_ne by discriminate;
            rewrite ?Htok; simpl).
    all: repeat split; reflexivity.
  - unfold_steps. simpl. rewrite lookup_insert_eq. reflexivity.
Qed.

(** *** Create Image *)

(** C7: in the Create Image step, a response whose status is not 200 makes
    the save branch (no pre-copy) report a ResponseError and halt, and makes
    the commit branch (pre-copy) report an error and still return
    continue.
    The endpoint is one that parses as a URL, so that the requests are
    built. *)
Theorem C7_save_halts_commit_continues config w vmid token resp :
  endpoint_parses (OrkaEndpoint config) = true ->
  NoCreateImage config = false ->
  bag w !! "vmid" = Some (VString vmid) ->
  bag w !! "token" = Some (VString token) ->
  server (trace w)
         (if ImagePrecopy config
          then imageCommitRequest config vmid token
          else imageSaveRequest config vmid token) = DoOk resp ->
  StatusCode resp <> 200%Z ->
  last (ui (snd (CreateImage_Run config w))) =
    Some (UiError (bracket (if ImagePrecopy config
                            then "Error committing image"
                            else RespMsg) (Status resp))) /\
  fst (CreateImage_Run config w) =
    Done (if ImagePrecopy config then ActionContinue else ActionHalt).
Proof.
  intros Hep Hno Hvmid Htoken Hdo Hst.
  unfold_steps. rewrite Hvmid, Htoken, Hno, Hep. simpl.
  destruct (ImagePrecopy config); simpl; rewrite Hdo; simpl;
    destruct (Z.eqb_spec (StatusCode resp) 200); try contradiction; simpl;
    rewrite last_snoc; split; reflexivity.
Qed.

(** *** The deploy response *)

(** C8: when the deploy call of the Create & Deploy step is answered with
    status 200 and a body that carries vmId "vm-1", ip "10.0.0.5" and
    sshPort "2222", the step continues and the state bag holds "vmid" =
    "vm-1", "ssh_host" = "10.0.0.5" and the number 2222 as "ssh_port".
    The endpoint is one that parses as a URL, so that the requests are
    built. *)
Theorem C8_deploy_response_published config w req r resp :
  endpoint_parses (OrkaEndpoint config) = true ->
  last (trace (snd (Run config w))) = Some (req, r) ->
  is_deploy req = true ->
  do_resp r = Some resp ->
  StatusCode resp = 200%Z ->
  uDep (Body resp) =
    {| VMId := "vm-1"; IP := "10.0.0.5"; SSHPort := "2222" |} ->
  fst (Run config w) = Done ActionContinue /\
  bag (snd (Run config w)) !! "vmid" = Some (VString "vm-1") /\
  bag (snd (Run config w)) !! "ssh_host" = Some (VString "10.0.0.5") /\
  bag (snd (Run config w)) !! "ssh_port" = Some (VInt 2222).
Proof.
  intros Hep. unfold_steps. rewrite Hep. simpl.
  intros Hlast Hdep Hresp Hst Hbody. revert Hlast.
  all_paths.
  all: rewrite ?last_snoc; intros [= <- <-]; try discriminate Hdep.
  all: simpl in Hresp; try discriminate Hresp.
  all: injection Hresp as ->; try contradiction.
  all: rewrite Hbody; cbn [VMId IP SSHPort]; rewrite Atoi_2222; cbn [fst].
  all: repeat split; by simplify_map_eq.
Qed.

(** *** Cleanup of Create & Deploy *)

(** C9: with [NoDeleteVM] set, the cleanup of the Create & Deploy step makes
    no HTTP call at all, neither image delete nor VM purge, whatever
    [failed] is (and whatever the state bag holds). *)
Theorem C9_no_delete_no_request config w :
  NoDeleteVM config = true ->
  issued w (snd (Cleanup config w)) = [] /\
  trace (snd (Cleanup config w)) = trace w.
Proof.
  intros H.
  assert (Ht : trace (snd (Cleanup config w)) = trace w).
  { unfold_steps. rewrite H.
    destruct (bag w !! "token") as [[]|]; simpl; try reflexivity.
    destruct (ImagePrecopy config); reflexivity. }
  split; [|exact Ht].
  unfold issued. rewrite Ht, drop_all. reflexivity.
Qed.

(** C10: the cleanup of the Create & Deploy step asserts the token to be a
    string before any of its branches.  When the login call failed, the run
    halts with no token in the bag, and the cleanup that follows panics at
    once, with nothing said and nothing requested, for every configuration,
    [NoDeleteVM] set or not.
    The endpoint is one that parses as a URL, so that the requests are
    built. *)
Theorem C10_cleanup_panics_after_failed_login config w :
  endpoint_parses (OrkaEndpoint config) = true ->
  bag w !! "token" = None ->
  is_Some (do_err (server (trace w) (tokenLoginRequest config))) ->
  fst (Run config w) = Done ActionHalt /\
  bag (snd (Run config w)) !! "token" = None /\
  exists msg,
    Cleanup config (snd (Run config w)) = (Panic msg, snd (Run config w)).
Proof.
  intros Hep Hnone [err Herr].
  assert (Hrun : fst (Run config w) = Done ActionHalt /\
                 bag (snd (Run config w)) !! "token" = None).
  { unfold_steps. rewrite Hep. simpl. rewrite Herr. simpl.
    split; [reflexivity|]. rewrite lookup_insert_ne by discriminate.
    exact Hnone. }
  destruct Hrun as [Hhalt Hbag].
  split; [exact Hhalt|]. split; [exact Hbag|].
  apply Cleanup_without_token. exact Hbag.
Qed.

(** *** More on the Create & Deploy step *)

Ltac norm_issued :=
  unfold issued; simpl; rewrite <- ?app_assoc; simpl;
  rewrite ?drop_app_length, ?drop_all; simpl.

(** X1: the calls of a Create & Deploy run are, in order, a prefix of login,
    image copy (only when pre-copy is configured and image creation is not
    switched off), VM create, VM deploy, each with the payload the
    configuration fixes; the VM is created from the destination image when
    the copy was made and from the source image otherwise.  The step never
    sends a delete or a purge. *)
Theorem Run_calls_in_order config w :
  map ReqBody (issued w (snd (Run config w))) `prefix_of`
    expected_calls config.
Proof.
  unfold expected_calls, launch_image, precopies.
  unfold_steps. simpl. all_paths.
  all: norm_issued.
  all: repeat (apply prefix_cons); try apply prefix_nil; try reflexivity.
Qed.

(** X2: every call of a Create & Deploy run is a POST with a JSON content
    type; the login call carries no authorization, and every other call
    carries [Bearer] followed by the token that the run stored under
    "token". *)
Theorem Run_requests_post_and_authorized config w :
  Forall (fun req =>
            Method req = "POST" /\
            if is_login req then Header req = [json_header]
            else exists token,
                bag (snd (Run config w)) !! "token" = Some (VString token) /\
                Header req = [json_header; bearer_header token])
         (issued w (snd (Run config w))).
Proof.
  unfold_steps. simpl. all_paths.
  all: norm_issued.
  all: repeat constructor; simpl.
  all: eexists; split; [by simplify_map_eq | reflexivity].
Qed.

(** X3: a Create & Deploy run never halts silently: when it returns halt,
    its last message to the user interface is an error, or an error is
    stored under "error" in the state bag. *)
Theorem Run_halt_is_never_silent config w :
  let out := stepOrkaCreate_Run ReqMsg RespMsg uTok uDep endpoint_parses server
               config w in
  fst out = Done ActionHalt ->
  (exists msg, last (ui (snd out)) = Some (UiError msg)) \/
  (exists e, bag (snd out) !! "error" = Some (VError e)).
Proof.
  cbv zeta.
  unfold_steps. simpl. all_paths.
  all: intros H; try discriminate H.
  all: try (left; rewrite last_snoc; eexists; reflexivity).
  all: right; eexists; by simplify_map_eq.
Qed.

(** A step that returned built its requests: the endpoint parses. *)
Lemma Run_returned_endpoint_parses config w action :
  fst (Run config w) = Done action ->
  endpoint_parses (OrkaEndpoint config) = true.
Proof.
  unfold_steps.
  destruct (endpoint_parses (OrkaEndpoint config)); [reflexivity|].
  simpl. discriminate.
Qed.

(** X4: a Create & Deploy run panics in two cases only: the endpoint does
    not parse as a URL, and the run has then made no call; or its deploy call
    did not reach the API (an error with a nil response).  In both cases the
    run has reported no error to the user interface. *)
Theorem Run_panic_causes config w msg :
  fst (Run config w) = Panic msg ->
  ((endpoint_parses (OrkaEndpoint config) = false /\
    issued w (snd (Run config w)) = []) \/
   (exists req err,
      last (trace (snd (Run config w))) = Some (req, DoErr err) /\
      is_deploy req = true)) /\
  List.filter is_UiError (ui (snd (Run config w))) =
    List.filter is_UiError (ui w).
Proof.
  unfold_steps. simpl. all_paths.
  all: intros H; try discriminate H.
  all: split;
    [|rewrite !List.filter_app; simpl; rewrite !app_nil_r; reflexivity].
  all: try (left; split; [reflexivity | norm_issued; reflexivity]).
  all: right; rewrite last_snoc; do 2 eexists; split; reflexivity.
Qed.

(** X5: a Create & Deploy run that halts has set [failed], with one
    exception: when the VM create call returned an error, the step struct is
    left as it was and no error is stored in the state bag. *)
Theorem Run_halt_sets_failed_unless_create_unreachable config w :
  fst (Run config w) = Done ActionHalt ->
  failed (orkaCreate (snd (Run config w))) = true \/
  (orkaCreate (snd (Run config w)) = orkaCreate w /\
   bag (snd (Run config w)) !! "error" = bag w !! "error" /\
   exists req r,
     last (trace (snd (Run config w))) = Some (req, r) /\
     is_create req = true /\ is_Some (do_err r)).
Proof.
  unfold_steps. simpl. all_paths.
  all: intros H; try discriminate H.
  all: try (left; reflexivity).
  all: right; split; [reflexivity|]; split; [by simplify_map_eq|].
  all: rewrite last_snoc; do 2 eexists.
  all: repeat split; try reflexivity; simpl; eauto.
Qed.

(** *** The port of the deployed VM *)

Lemma cut_sign_length s :
  (String.length (snd (cut_sign s)) <= String.length s)%nat.
Proof.
  destruct s as [|c rest]; [reflexivity|].
  destruct c as [[] [] [] [] [] [] [] []]; simpl; lia.
Qed.

Lemma is_digit_value c :
  is_digit c = true -> (0 <= Z.of_nat (nat_of_ascii c) - 48 <= 9)%Z.
Proof.
  unfold is_digit. intros [Hlo Hhi]%andb_prop.
  apply Z.leb_le in Hlo, Hhi. lia.
Qed.

Lemma digits_value_bound s : forall acc n,
  (0 <= acc)%Z -> digits_value acc s = Some n ->
  (0 <= n < (acc + 1) * 10 ^ Z.of_nat (String.length s))%Z.
Proof.
  induction s as [|c rest IH]; intros acc n Hacc H.
  - injection H as <-. simpl. lia.
  - cbn [digits_value] in H.
    destruct (is_digit c) eqn:Hc; [|discriminate].
    apply is_digit_value in Hc.
    apply IH in H; [|lia].
    cbn [String.length]. rewrite Nat2Z.inj_succ, Z.pow_succ_r by lia.
    assert (0 < 10 ^ Z.of_nat (String.length rest))%Z
      by (apply Z.pow_pos_nonneg; lia).
    nia.
Qed.

Lemma ParseUint_digits_result s : forall n,
  (0 <= n <= maxUint64)%Z ->
  match ParseUint_digits n s with
  | (m, None) => (0 <= m <= maxUint64)%Z
  | (m, Some ErrRange) => m = maxUint64
  | (m, Some ErrSyntax) => m = 0%Z
  end.
Proof.
  induction s as [|c rest IH]; intros n Hn; cbn [ParseUint_digits].
  - exact Hn.
  - destruct (is_digit c); [|reflexivity].
    destruct (maxUint64 / 10 + 1 <=? n)%Z; [reflexivity|].
    cbv zeta.
    destruct (((n * 10 + (Z.of_nat (nat_of_ascii c) - 48)) mod 2 ^ 64 <?
               n * 10)%Z
              || (maxUint64 <?
                  (n * 10 + (Z.of_nat (nat_of_ascii c) - 48)) mod 2 ^ 64)%Z)
      eqn:Hover; [reflexivity|].
    apply IH. apply orb_false_elim in Hover as [_ Hmax].
    apply Z.ltb_ge in Hmax. split; [|exact Hmax].
    apply Z.mod_pos_bound. reflexivity.
Qed.

(** The results of [Atoi]: a syntax error comes with 0, and every value is
    in the range of a 64-bit int. *)
Lemma Atoi_result s :
  (snd (Atoi s) = Some ErrSyntax -> fst (Atoi s) = 0%Z) /\
  (- 2 ^ 63 <= fst (Atoi s) <= 2 ^ 63 - 1)%Z.
Proof.
  unfold Atoi.
  destruct ((0 <? String.length s) && (String.length s <? 19))%nat eqn:Hlen.
  - apply andb_prop in Hlen as [_ Hlen]. apply Nat.ltb_lt in Hlen.
    pose proof (cut_sign_length s) as Hcut.
    destruct (cut_sign s) as [neg digits]. cbn [snd] in Hcut.
    destruct digits as [|c rest] eqn:Hdigits; [cbn; split; [reflexivity|lia]|].
    rewrite <- Hdigits in *. clear Hdigits.
    destruct (digits_value 0 digits) as [n|] eqn:Hn;
      [|cbn; split; [reflexivity|lia]].
    apply digits_value_bound in Hn; [|lia].
    assert (10 ^ Z.of_nat (String.length digits) <= 10 ^ 18)%Z
      by (apply Z.pow_le_mono_r; lia).
    change (10 ^ 18)%Z with 1000000000000000000%Z in *.
    change (2 ^ 63)%Z with 9223372036854775808%Z.
    destruct neg; cbn [fst snd]; (split; [discriminate|lia]).
  - unfold ParseInt. destruct s as [|c0 rest0] eqn:Hs;
      [cbn; split; [reflexivity|lia]|].
    rewrite <- Hs. clear Hs Hlen.
    destruct (cut_sign s) as [neg digits].
    unfold ParseUint.
    destruct digits as [|c rest] eqn:Hdigits; [cbn; split; [reflexivity|lia]|].
    rewrite <- Hdigits. clear Hdigits.
    pose proof (ParseUint_digits_result digits 0) as Hun.
    unfold maxUint64 in Hun.
    change (2 ^ 64 - 1)%Z with 18446744073709551615%Z in Hun.
    change (2 ^ 63)%Z with 9223372036854775808%Z.
    destruct (ParseUint_digits 0 digits) as [un [[]|]];
      [cbn; split; [reflexivity|lia]| |].
    all: specialize (Hun ltac:(lia)).
    all: destruct neg; cbn [negb andb];
      repeat match goal with
        | |- context [(?a <=? ?b)%Z] => destruct (Z.leb_spec a b)
        | |- context [(?a <? ?b)%Z] => destruct (Z.ltb_spec a b)
        end; cbn [fst snd]; (split; [discriminate|lia]).
Qed.

Lemma Atoi_syntax_error_is_zero s :
  snd (Atoi s) = Some ErrSyntax -> fst (Atoi s) = 0%Z.
Proof. apply Atoi_result. Qed.

Lemma Atoi_in_int64_range s :
  (- 2 ^ 63 <= fst (Atoi s) <= 2 ^ 63 - 1)%Z.
Proof. apply Atoi_result. Qed.

(** What the state holds after a run that continues. *)
Lemma Run_continue_state config w :
  fst (Run config w) = Done ActionContinue ->
  exists req r resp token,
    last (trace (snd (Run config w))) = Some (req, r) /\
    is_deploy req = true /\
    do_resp r = Some resp /\
    StatusCode resp = 200%Z /\
    bag (snd (Run config w)) !! "token" = Some (VString token) /\
    bag (snd (Run config w)) !! "vmid" =
      Some (VString (VMId (uDep (Body resp)))) /\
    bag (snd (Run config w)) !! "ssh_host" =
      Some (VString (IP (uDep (Body resp)))) /\
    bag (snd (Run config w)) !! "ssh_port" =
      Some (VInt (fst (Atoi (SSHPort (uDep (Body resp)))))) /\
    bag (snd (Run config w)) !! "error" = bag w !! "error" /\
    orkaCreate (snd (Run config w)) = orkaCreate w.
Proof.
  unfold_steps. simpl. all_paths.
  all: intros H; try discriminate H.
  all: rewrite last_snoc; do 4 eexists.
  all: repeat split; try reflexivity; try eassumption; by simplify_map_eq.
Qed.

(** X6: a Create & Deploy run returns continue only after a deploy response
    with status 200; the bag then holds the token, and the identifier,
    address and port parsed from that response under "vmid", "ssh_host" and
    "ssh_port" (the port as the number [strconv.Atoi] gives); the stored
    error and the step struct are as before the run. *)
Theorem Run_continue_publishes config w :
  fst (Run config w) = Done ActionContinue ->
  exists req r resp token,
    last (trace (snd (Run config w))) = Some (req, r) /\
    is_deploy req = true /\
    do_resp r = Some resp /\
    StatusCode resp = 200%Z /\
    bag (snd (Run config w)) !! "token" = Some (VString token) /\
    bag (snd (Run config w)) !! "vmid" =
      Some (VString (VMId (uDep (Body resp)))) /\
    bag (snd (Run config w)) !! "ssh_host" =
      Some (VString (IP (uDep (Body resp)))) /\
    bag (snd (Run config w)) !! "ssh_port" =
      Some (VInt (fst (Atoi (SSHPort (uDep (Body resp)))))) /\
    bag (snd (Run config w)) !! "error" = bag w !! "error" /\
    orkaCreate (snd (Run config w)) = orkaCreate w.
Proof.
  exact (Run_continue_state config w).
Qed.

(** X7: the port a continuing run stores under "ssh_port" is a number in the
    range of a 64-bit int, whatever string the deploy response carried. *)
Theorem Run_stored_port_in_range config w :
  let out := stepOrkaCreate_Run ReqMsg RespMsg uTok uDep endpoint_parses server
               config w in
  fst out = Done ActionContinue ->
  exists n,
    bag (snd out) !! "ssh_port" = Some (VInt n) /\
    (- 2 ^ 63 <= n <= 2 ^ 63 - 1)%Z.
Proof.
  cbv zeta.
  intros H.
  destruct (Run_continue_state config w H)
    as (req & r & resp & token & _ & _ & _ & _ & _ & _ & _ & Hport & _).
  eexists. split; [exact Hport|]. apply Atoi_in_int64_range.
Qed.

(** X8: a port string that is no decimal number does not fail the step: after
    a deploy response with status 200 the run continues and stores 0 as
    "ssh_port".
    The endpoint is one that parses as a URL, so that the requests are
    built. *)
Theorem Run_unparsable_port_stored_as_zero config w req r resp :
  endpoint_parses (OrkaEndpoint config) = true ->
  last (trace (snd (Run config w))) = Some (req, r) ->
  is_deploy req = true ->
  do_resp r = Some resp ->
  StatusCode resp = 200%Z ->
  snd (Atoi (SSHPort (uDep (Body resp)))) = Some ErrSyntax ->
  fst (Run config w) = Done ActionContinue /\
  bag (snd (Run config w)) !! "ssh_port" = Some (VInt 0).
Proof.
  intros Hep Hlast Hdep Hresp Hst Hsyntax.
  apply Atoi_syntax_error_is_zero in Hsyntax.
  revert Hlast. unfold_steps. rewrite Hep. simpl. all_paths.
  all: rewrite ?last_snoc; intros [= <- <-]; try discriminate Hdep.
  all: simpl in Hresp; try discriminate Hresp.
  all: injection Hresp as ->; try contradiction.
  all: rewrite Hsyntax.
  all: split; [reflexivity | by simplify_map_eq].
Qed.

(** X9: a Create & Deploy run writes the state bag under "error", "token",
    "vmid", "ssh_port" and "ssh_host" only; every other key keeps what it
    held. *)
Theorem Run_writes_its_keys_only config w (k : string) :
  k ∉ Run_keys ->
  bag (snd (Run config w)) !! k = bag w !! k.
Proof.
  unfold Run_keys. intros Hk.
  repeat (apply not_elem_of_cons in Hk as [? Hk]).
  unfold_steps. simpl. all_paths.
  all: by simplify_map_eq.
Qed.

(** *** More on the cleanup of Create & Deploy *)

(** The one call of the cleanup on the success path. *)
Lemma Cleanup_purge_call config w token :
  endpoint_parses (OrkaEndpoint config) = true ->
  NoDeleteVM config = false ->
  failed (orkaCreate w) = false ->
  bag w !! "token" = Some (VString token) ->
  issued w (snd (Cleanup config w)) = [vmPurgeRequest config token].
Proof.
  intros Hep Hno Hfailed Htok.
  unfold_steps. rewrite Htok, Hno, Hfailed, Hep. simpl.
  all_paths; norm_issued; reflexivity.
Qed.

(** X10: on the success path ([failed] false, [NoDeleteVM] unset, a token in
    the bag) the cleanup makes exactly one call, whatever the API answers: a
    DELETE that purges the VM named by the builder VM name of the
    configuration, authorized with the stored token; no image is deleted.
    The endpoint is one that parses as a URL, so that the requests are
    built. *)
Theorem Cleanup_success_path_purges_once config w token :
  endpoint_parses (OrkaEndpoint config) = true ->
  NoDeleteVM config = false ->
  failed (orkaCreate w) = false ->
  bag w !! "token" = Some (VString token) ->
  issued w (snd (Cleanup config w)) = [vmPurgeRequest config token] /\
  Method (vmPurgeRequest config token) = "DELETE" /\
  ReqBody (vmPurgeRequest config token) =
    VMPurgeRequest (OrkaVMBuilderName config) /\
  Header (vmPurgeRequest config token) = [json_header; bearer_header token].
Proof.
  intros Hep Hno Hfailed Htok. split; [|repeat split].
  apply Cleanup_purge_call; assumption.
Qed.

(** X11: the cleanup of Create & Deploy makes at most one call, and a call
    it makes is a DELETE of an image or a purge of a VM, for every
    configuration and every state. *)
Theorem Cleanup_at_most_one_delete_call config w :
  (length (issued w (snd (Cleanup config w))) <= 1)%nat /\
  Forall (fun req =>
            Method req = "DELETE" /\
            (is_image_delete req || is_purge req) = true)
         (issued w (snd (Cleanup config w))).
Proof.
  unfold_steps. simpl.
  destruct (bag w !! "token") as [[tok| | |]|] eqn:Htok; simpl.
  2-5: norm_issued; split; [lia | constructor].
  repeat (all_paths; rewrite ?Htok; simpl).
  all: norm_issued; split; [lia | repeat constructor].
Qed.

(** X12: the cleanup of Create & Deploy leaves the two step structs as they
    are and writes the state bag under "error" only. *)
Theorem Cleanup_touches_error_key_only config w :
  let out := stepOrkaCreate_Cleanup ReqMsg RespMsg endpoint_parses server
               config w in
  orkaCreate (snd out) = orkaCreate w /\
  createImage (snd out) = createImage w /\
  delete "error" (bag (snd out)) = delete "error" (bag w).
Proof.
  cbv zeta.
  unfold_steps. simpl.
  destruct (bag w !! "token") as [[tok| | |]|] eqn:Htok; simpl.
  2-5: repeat split; reflexivity.
  repeat (all_paths; rewrite ?Htok; simpl).
  all: rewrite ?delete_insert_eq; repeat split; reflexivity.
Qed.

(** X13: the cleanup of Create & Deploy panics in three cases only: there is
    no string under "token"; the endpoint does not parse as a URL; or its
    purge call did not reach the API. *)
Theorem Cleanup_panic_causes config w msg :
  fst (Cleanup config w) = Panic msg ->
  (forall token, bag w !! "token" <> Some (VString token)) \/
  endpoint_parses (OrkaEndpoint config) = false \/
  exists req err,
    last (trace (snd (Cleanup config w))) = Some (req, DoErr err) /\
    is_purge req = true.
Proof.
  unfold_steps. simpl.
  destruct (bag w !! "token") as [[tok| | |]|] eqn:Htok; simpl.
  2-5: intros _; left; intros token; discriminate.
  repeat (all_paths; rewrite ?Htok; simpl).
  all: intros H; try discriminate H.
  all: try (right; left; reflexivity).
  all: right; right; rewrite last_snoc; do 2 eexists; split; reflexivity.
Qed.

(** *** Run, then cleanup *)

(** X14: after a run that continues (from a step that had not failed, and
    with [NoDeleteVM] unset) the cleanup makes exactly one call, the purge of
    the builder VM, authorized with the token the run stored. *)
Theorem Run_continue_then_Cleanup_purges config w :
  NoDeleteVM config = false ->
  failed (orkaCreate w) = false ->
  fst (Run config w) = Done ActionContinue ->
  exists token,
    bag (snd (Run config w)) !! "token" = Some (VString token) /\
    issued (snd (Run config w)) (snd (Cleanup config (snd (Run config w)))) =
      [vmPurgeRequest config token].
Proof.
  intros Hno Hfailed Hcont.
  destruct (Run_continue_state config w Hcont)
    as (req & r & resp & token & _ & _ & _ & _ & Htok & _ & _ & _ & _ & Hs).
  exists token. split; [exact Htok|].
  apply Cleanup_purge_call;
    [exact (Run_returned_endpoint_parses _ _ _ Hcont) | exact Hno | |
     exact Htok].
  rewrite Hs. exact Hfailed.
Qed.

(** X15: when the VM create call returns an error, the run halts with
    [failed] still false, so the cleanup that follows (with [NoDeleteVM]
    unset) takes the success path and purges the builder VM.
    The endpoint is one that parses as a URL, so that the requests are
    built. *)
Theorem create_unreachable_then_Cleanup_purges config w req r :
  endpoint_parses (OrkaEndpoint config) = true ->
  NoDeleteVM config = false ->
  failed (orkaCreate w) = false ->
  last (trace (snd (Run config w))) = Some (req, r) ->
  is_create req = true ->
  is_Some (do_err r) ->
  fst (Run config w) = Done ActionHalt /\
  failed (orkaCreate (snd (Run config w))) = false /\
  map ReqBody
      (issued (snd (Run config w))
              (snd (Cleanup config (snd (Run config w))))) =
    [VMPurgeRequest (OrkaVMBuilderName config)].
Proof.
  intros Hep Hno Hfailed Hlast Hcreate [e He].
  assert (H : fst (Run config w) = Done ActionHalt /\
              failed (orkaCreate (snd (Run config w))) = false /\
              exists token,
                bag (snd (Run config w)) !! "token" = Some (VString token)).
  { revert Hlast. unfold_steps. rewrite Hep. simpl. all_paths.
    all: rewrite ?last_snoc; intros [= <- <-]; try discriminate Hcreate.
    all: try discriminate He.
    all: repeat split; try exact Hfailed.
    all: eexists; by simplify_map_eq. }
  destruct H as (Hhalt & Hf & token & Htok).
  split; [exact Hhalt|]. split; [exact Hf|].
  rewrite (Cleanup_purge_call config _ token Hep Hno Hf Htok).
  reflexivity.
Qed.

(** X16: without pre-copy, when the deploy call is answered with a status
    other than 200, the run halts with [failed] set, and the cleanup that
    follows returns without any call: the VM configuration that was created
    is not purged.
    The endpoint is one that parses as a URL, so that the requests are
    built. *)
Theorem deploy_refused_then_Cleanup_leaves_the_VM config w req r resp :
  endpoint_parses (OrkaEndpoint config) = true ->
  ImagePrecopy config = false ->
  last (trace (snd (Run config w))) = Some (req, r) ->
  is_deploy req = true ->
  do_resp r = Some resp ->
  StatusCode resp <> 200%Z ->
  fst (Run config w) = Done ActionHalt /\
  failed (orkaCreate (snd (Run config w))) = true /\
  fst (Cleanup config (snd (Run config w))) = Done tt /\
  issued (snd (Run config w)) (snd (Cleanup config (snd (Run config w)))) = [].
Proof.
  intros Hep Hpre Hlast Hdep Hresp Hst.
  revert Hlast. unfold_steps. rewrite Hpre, Hep. simpl. all_paths.
  all: rewrite ?last_snoc; intros [= <- <-]; try discriminate Hdep.
  all: simpl in Hresp; try discriminate Hresp.
  all: injection Hresp as ->; try contradiction.
  all: rewrite ?lookup_insert_ne by discriminate.
  all: rewrite lookup_insert_eq; simpl.
  all: destruct (NoDeleteVM config); simpl.
  all: norm_issued; repeat split; reflexivity.
Qed.

(** *** More on the Create Image step *)

(** X17: with [NoCreateImage] set the Create Image step makes no call and
    leaves the state bag as it is; when "vmid" and "token" hold strings it
    returns continue and reports no error. *)
Theorem CreateImage_Run_skipped config w :
  NoCreateImage config = true ->
  trace (snd (CreateImage_Run config w)) = trace w /\
  bag (snd (CreateImage_Run config w)) = bag w /\
  forall vmid token,
    bag w !! "vmid" = Some (VString vmid) ->
    bag w !! "token" = Some (VString token) ->
    fst (CreateImage_Run config w) = Done ActionContinue /\
    List.filter is_UiError (ui (snd (CreateImage_Run config w))) =
      List.filter is_UiError (ui w).
Proof.
  intros Hno. unfold_steps. rewrite Hno.
  destruct (bag w !! "vmid") as [[vmid'| | |]|]; simpl;
    try (repeat split; intros; discriminate).
  destruct (bag w !! "token") as [[token'| | |]|]; simpl;
    try (repeat split; intros; discriminate).
  repeat split.
  rewrite List.filter_app. simpl. rewrite app_nil_r. reflexivity.
Qed.

(** X18: with [NoCreateImage] unset and strings under "vmid" and "token",
    the Create Image step makes exactly one call, a commit of the VM when
    pre-copy is configured and a save of the VM under the image name
    otherwise, authorized with the token; it returns (it does not panic)
    and changes neither the state bag nor the flags of Create & Deploy.
    The endpoint is one that parses as a URL, so that the requests are
    built. *)
Theorem CreateImage_Run_one_call config w vmid token :
  endpoint_parses (OrkaEndpoint config) = true ->
  NoCreateImage config = false ->
  bag w !! "vmid" = Some (VString vmid) ->
  bag w !! "token" = Some (VString token) ->
  issued w (snd (CreateImage_Run config w)) =
    [if ImagePrecopy config
     then imageCommitRequest config vmid token
     else imageSaveRequest config vmid token] /\
  (exists action, fst (CreateImage_Run config w) = Done action) /\
  bag (snd (CreateImage_Run config w)) = bag w /\
  orkaCreate (snd (CreateImage_Run config w)) = orkaCreate w.
Proof.
  intros Hep Hno Hvmid Htoken.
  unfold_steps. rewrite Hvmid, Htoken, Hno, Hep. simpl.
  all_paths; norm_issued; repeat split; eexists; reflexivity.
Qed.

(** X19: when the commit or save call returns an error, the Create Image
    step reports a RequestError with that error and halts, in both
    branches.
    The endpoint is one that parses as a URL, so that the requests are
    built. *)
Theorem CreateImage_Run_unreachable_halts config w vmid token err :
  endpoint_parses (OrkaEndpoint config) = true ->
  NoCreateImage config = false ->
  bag w !! "vmid" = Some (VString vmid) ->
  bag w !! "token" = Some (VString token) ->
  do_err (server (trace w)
            (if ImagePrecopy config
             then imageCommitRequest config vmid token
             else imageSaveRequest config vmid token)) = Some err ->
  fst (CreateImage_Run config w) = Done ActionHalt /\
  last (ui (snd (CreateImage_Run config w))) =
    Some (UiError (bracket ReqMsg err)).
Proof.
  intros Hep Hno Hvmid Htoken Herr.
  unfold_steps. rewrite Hvmid, Htoken, Hno, Hep. simpl.
  destruct (ImagePrecopy config); simpl; rewrite Herr; simpl;
    rewrite last_snoc; split; reflexivity.
Qed.

(** X20: when the commit or save call is answered with status 200, the
    Create Image step continues and reports no error.
    The endpoint is one that parses as a URL, so that the requests are
    built. *)
Theorem CreateImage_Run_status_200_continues config w vmid token resp :
  endpoint_parses (OrkaEndpoint config) = true ->
  NoCreateImage config = false ->
  bag w !! "vmid" = Some (VString vmid) ->
  bag w !! "token" = Some (VString token) ->
  server (trace w)
         (if ImagePrecopy config
          then imageCommitRequest config vmid token
          else imageSaveRequest config vmid token) = DoOk resp ->
  StatusCode resp = 200%Z ->
  fst (CreateImage_Run config w) = Done ActionContinue /\
  List.filter is_UiError (ui (snd (CreateImage_Run config w))) =
    List.filter is_UiError (ui w).
Proof.
  intros Hep Hno Hvmid Htoken Hdo Hst.
  unfold_steps. rewrite Hvmid, Htoken, Hno, Hep. simpl.
  destruct (ImagePrecopy config); simpl; rewrite Hdo; simpl;
    rewrite Hst; simpl; (split; [reflexivity|]);
    rewrite !List.filter_app; simpl; rewrite !app_nil_r; reflexivity.
Qed.

(** X21: after a Create Image run that returned, its cleanup returns too,
    makes no call and leaves the state bag as it was before the run. *)
Theorem CreateImage_Cleanup_after_Run config w action :
  fst (CreateImage_Run config w) = Done action ->
  fst (stepCreateImage_Cleanup (snd (CreateImage_Run config w))) = Done tt /\
  trace (snd (stepCreateImage_Cleanup (snd (CreateImage_Run config w)))) =
    trace (snd (CreateImage_Run config w)) /\
  bag (snd (stepCreateImage_Cleanup (snd (CreateImage_Run config w)))) =
    bag w.
Proof.
  unfold_steps.
  destruct (bag w !! "vmid") as [[vmid| | |]|] eqn:Hvmid; simpl;
    try discriminate.
  destruct (bag w !! "token") as [[token| | |]|] eqn:Htoken; simpl;
    try discriminate.
  all_paths.
  all: intros H; try discriminate H.
  all: rewrite ?Hvmid; simpl.
  all: repeat match goal with
         | |- context [if ?b then _ else _] => destruct b; simpl
         end.
  all: repeat split; reflexivity.
Qed.

(** With strings under "vmid" and "token" the Create Image step returns. *)
Lemma CreateImage_Run_returns config w vmid token :
  endpoint_parses (OrkaEndpoint config) = true ->
  bag w !! "vmid" = Some (VString vmid) ->
  bag w !! "token" = Some (VString token) ->
  exists action, fst (CreateImage_Run config w) = Done action.
Proof.
  intros Hep Hvmid Htoken.
  unfold_steps. rewrite Hvmid, Htoken, Hep. simpl.
  all_paths; eexists; reflexivity.
Qed.

(** X22: a Create & Deploy run that continues leaves the state the Create
    Image step needs: run on that state, Create Image returns an action, for
    every configuration and every answer of the API. *)
Theorem Run_continue_then_CreateImage_Run_returns config w :
  let out := stepOrkaCreate_Run ReqMsg RespMsg uTok uDep endpoint_parses server
               config w in
  fst out = Done ActionContinue ->
  exists action,
    fst (stepCreateImage_Run ReqMsg RespMsg uCommit uSave endpoint_parses
           server config
           (snd out)) = Done action.
Proof.
  cbv zeta.
  intros Hcont.
  destruct (Run_continue_state config w Hcont)
    as (req & r & resp & token & _ & _ & _ & _ & Htok & Hvmid & _).
  exact (CreateImage_Run_returns config _ _ _
           (Run_returned_endpoint_parses _ _ _ Hcont) Hvmid Htok).
Qed.


(** *** The failure path of the cleanup *)

(** X23: after a failure ([failed] set, [NoDeleteVM] unset, a token in the
    bag) the cleanup always returns, whatever the API answers to the image
    delete, and never purges the VM.
    The endpoint is one that parses as a URL, so that the requests are
    built. *)
Theorem Cleanup_failure_path_returns config w token :
  endpoint_parses (OrkaEndpoint config) = true ->
  NoDeleteVM config = false ->
  failed (orkaCreate w) = true ->
  bag w !! "token" = Some (VString token) ->
  fst (Cleanup config w) = Done tt /\
  Forall (fun req => is_purge req = false) (issued w (snd (Cleanup config w))).
Proof.
  intros Hep Hno Hfailed Htok.
  unfold_steps. rewrite Htok, Hno, Hfailed, Hep. simpl.
  repeat (all_paths; rewrite ?Htok; simpl).
  all: norm_issued; split; [reflexivity | repeat constructor].
Qed.

(** X24: when the compensating image delete fails, the cleanup reports it and
    stops there: a call that did not reach the API is reported as a
    RequestError and stored under "error", a status other than 200 is
    reported as [Image could not be deleted]; in both cases that error is
    the last message.  Only a delete answered with 200 is followed by the
    closing message of the failure path.
    The endpoint is one that parses as a URL, so that the requests are
    built. *)
Theorem Cleanup_failed_delete_is_reported config w token :
  endpoint_parses (OrkaEndpoint config) = true ->
  NoDeleteVM config = false ->
  failed (orkaCreate w) = true ->
  ImagePrecopy config = true ->
  bag w !! "token" = Some (VString token) ->
  match server (trace w) (imageDeleteRequest config token) with
  | DoErr err | DoErrResp err _ =>
      last (ui (snd (Cleanup config w))) =
        Some (UiError (bracket ReqMsg err)) /\
      bag (snd (Cleanup config w)) !! "error" = Some (VError err)
  | DoOk resp =>
      if (StatusCode resp =? 200)%Z
      then last (ui (snd (Cleanup config w))) =
             Some (UiSay "Nothing to cleanup: the builder VM creation, deployment and/or provisioning failed.")
      else last (ui (snd (Cleanup config w))) =
             Some (UiError (bracket "Image could not be deleted"
                                    (Status resp)))
  end.
Proof.
  intros Hep Hno Hfailed Hpre Htok.
  unfold_steps. rewrite Htok, Hno, Hfailed, Hpre. simpl.
  rewrite Htok, Hep. simpl.
  destruct (server (trace w) (imageDeleteRequest config token))
    as [resp|err|err resp]; simpl.
  - destruct (StatusCode resp =? 200)%Z; simpl; rewrite last_snoc; reflexivity.
  - rewrite last_snoc. split; [reflexivity | by simplify_map_eq].
  - rewrite last_snoc. split; [reflexivity | by simplify_map_eq].
Qed.

(** *** An endpoint that does not parse *)

(** X25: when the endpoint does not parse as a URL, a Create & Deploy run
    panics while it builds the login request: it has made no call, written
    nothing to the state bag and left the flags of the step as they were;
    no error is reported or stored. *)
Theorem Run_unparsable_endpoint_panics config w :
  endpoint_parses (OrkaEndpoint config) = false ->
  (exists msg, fst (Run config w) = Panic msg) /\
  issued w (snd (Run config w)) = [] /\
  bag (snd (Run config w)) = bag w /\
  orkaCreate (snd (Run config w)) = orkaCreate w /\
  List.filter is_UiError (ui (snd (Run config w))) =
    List.filter is_UiError (ui w).
Proof.
  intros Hep. unfold_steps. rewrite Hep. simpl.
  norm_issued. repeat split; [eexists; reflexivity|].
  rewrite List.filter_app. simpl. rewrite app_nil_r. reflexivity.
Qed.

(** X26: when the endpoint does not parse as a URL, the cleanup of
    Create & Deploy on its success path ([failed] false, [NoDeleteVM] unset,
    a token in the bag) panics while it builds the purge request: no purge
    is sent and no error is reported. *)
Theorem Cleanup_unparsable_endpoint_panics config w token :
  endpoint_parses (OrkaEndpoint config) = false ->
  NoDeleteVM config = false ->
  failed (orkaCreate w) = false ->
  bag w !! "token" = Some (VString token) ->
  (exists msg, fst (Cleanup config w) = Panic msg) /\
  issued w (snd (Cleanup config w)) = [] /\
  List.filter is_UiError (ui (snd (Cleanup config w))) =
    List.filter is_UiError (ui w).
Proof.
  intros Hep Hno Hfailed Htok.
  unfold_steps. rewrite Htok, Hno, Hfailed, Hep. simpl.
  norm_issued. repeat split; [eexists; reflexivity|].
  rewrite List.filter_app. simpl. rewrite app_nil_r. reflexivity.
Qed.

End Facts.


(** ** The steps on the sample runs *)

(** C1: pre-copy enabled, the copy succeeds, the VM configuration call is
    answered with 500: the step halts with [failed] set.  The cleanup then
    makes exactly one call, an image delete and no purge, but the image it
    names is the builder VM name "packer-builder", not the destination image
    "packer.img" that was pre-copied. *)
Theorem C1_cleanup_deletes_builder_name :
  let config := sample_config true false in
  let run := sample_Run create_fails config initial_world in
  let clean := sample_Cleanup create_fails config (snd run) in
  fst run = Done ActionHalt /\
  failed (orkaCreate (snd run)) = true /\
  map ReqBody (issued initial_world (snd run)) =
    [TokenLoginRequest "admin@example.org" "secret";
     ImageCopyRequest "base.img" "packer.img";
     VMCreateRequest "packer-builder" "packer.img" "packer-builder" 3 3] /\
  fst clean = Done tt /\
  map ReqBody (issued (snd run) (snd clean)) =
    [ImageDeleteRequest "packer-builder"] /\
  ImageName config = "packer.img".
Proof. vm_compute. repeat split. Qed.

(** C2: pre-copy enabled, the copy call is answered with status 500: the
    step halts and sets [failed], but [precopyFailed] stays false. *)
Theorem C2_copy_status_failure_leaves_precopyFailed :
  let config := sample_config true false in
  let run := sample_Run copy_fails config initial_world in
  last (trace (snd run)) =
    Some (imageCopyRequest config "tok-1",
          response 500 "500 Internal Server Error" "") /\
  fst run = Done ActionHalt /\
  failed (orkaCreate (snd run)) = true /\
  precopyFailed (orkaCreate (snd run)) = false.
Proof. vm_compute. repeat split. Qed.

(** C3: after a successful run ([failed] false, [NoDeleteVM] unset) the
    purge call does not reach the API: the cleanup reports the RequestError
    and then panics on the nil response instead of returning. *)
Theorem C3_purge_transport_error_panics :
  let config := sample_config false false in
  let w := deployed_world config in
  let clean := sample_Cleanup purge_unreachable config w in
  failed (orkaCreate w) = false /\
  map ReqBody (issued w (snd clean)) = [VMPurgeRequest "packer-builder"] /\
  last (ui (snd clean)) =
    Some (UiError (bracket sample_RequestErrorMessage refused)) /\
  fst clean = Panic "invalid memory address or nil pointer dereference".
Proof. vm_compute. repeat split. Qed.

(** C4: the deploy call does not reach the API: the step panics on the nil
    response; no error was reported to the user interface, none is stored,
    and [failed] is not set. *)
Theorem C4_deploy_transport_error_panics :
  let config := sample_config false false in
  let run := sample_Run deploy_unreachable config initial_world in
  last (trace (snd run)) =
    Some (vmDeployRequest config "tok-1", DoErr refused) /\
  fst run = Panic "invalid memory address or nil pointer dereference" /\
  List.filter is_UiError (ui (snd run)) = [] /\
  bag (snd run) !! "error" = None /\
  failed (orkaCreate (snd run)) = false.
Proof. vm_compute. repeat split. Qed.

(** C5, as stated, fails: the login call is answered with 401 and the step
    does not halt with [failed] set and an error stored. *)
Lemma C5_login_401_is_not_a_failure :
  let config := sample_config false false in
  let run := sample_Run login_unauthorized config initial_world in
  login_unauthorized (trace initial_world) (tokenLoginRequest config) =
    response 401 "401 Unauthorized" "" /\
  ~ (fst run = Done ActionHalt /\
     failed (orkaCreate (snd run)) = true /\
     is_Some (bag (snd run) !! "error")).
Proof.
  split; [reflexivity|].
  intros (Hhalt & _). vm_compute in Hhalt. discriminate Hhalt.
Qed.

(** C6, as stated, fails: the deploy call is answered with status 200 and a
    body without an identifier.  The deploy succeeded and the stored vmid is
    empty, so the equivalence does not hold; and the cleanup of the step
    purges the VM all the same. *)
Lemma C6_empty_vmid_after_deploy_and_purge :
  let config := sample_config false false in
  let run := sample_Run deploy_without_id config initial_world in
  let clean := sample_Cleanup deploy_without_id config (snd run) in
  ~ ((exists v, bag (snd run) !! "vmid" = Some (VString v) /\ v <> "") <->
     (exists req resp,
        last (trace (snd run)) = Some (req, DoOk resp) /\
        is_deploy req = true /\ StatusCode resp = 200%Z /\
        fst run = Done ActionContinue)) /\
  bag (snd run) !! "vmid" = Some (VString "") /\
  map ReqBody (issued (snd run) (snd clean)) =
    [VMPurgeRequest "packer-builder"].
Proof.
  split; [|vm_compute; split; reflexivity].
  intros [_ H]. destruct H as (v & Hv & Hne).
  - eexists _, _. vm_compute. repeat split.
  - vm_compute in Hv. congruence.
Qed.

(** ** The theorems at the sample runs *)

(** C5 at a login answered with 401. *)
Lemma C5_login_once_status_not_checked_witness :
  let config := sample_config false false in
  let run := sample_Run login_unauthorized config initial_world in
  exists rest,
    trace (snd run) =
      trace initial_world ++
      (tokenLoginRequest config, response 401 "401 Unauthorized" "") :: rest /\
    Forall (fun c => is_login (fst c) = false) rest /\
    bag (snd run) !! "token" = Some (VString "") /\
    rest <> [].
Proof.
  exact (C5_login_once_status_not_checked
           sample_RequestErrorMessage sample_ResponseErrorMessage
           sample_unmarshalTokenLogin sample_unmarshalVMDeploy
           sample_endpoint_parses login_unauthorized
           (sample_config false false) initial_world eq_refl).
Defined.

(** C7 at a save and at a commit answered with 500. *)
Lemma C7_save_halts_commit_continues_witness :
  (let config := sample_config false false in
   let out := sample_CreateImage_Run save_fails config (deployed_world config) in
   last (ui (snd out)) =
     Some (UiError "Orka API response error [500 Internal Server Error]") /\
   fst out = Done ActionHalt) /\
  (let config := sample_config true false in
   let out := sample_CreateImage_Run commit_fails config (deployed_world config) in
   last (ui (snd out)) =
     Some (UiError "Error committing image [500 Internal Server Error]") /\
   fst out = Done ActionContinue).
Proof.
  split.
  - apply (C7_save_halts_commit_continues
             sample_RequestErrorMessage sample_ResponseErrorMessage
             sample_unmarshalImageCommit sample_unmarshalImageSave
             sample_endpoint_parses save_fails
             (sample_config false false) (deployed_world (sample_config false false))
             "vm-1" "tok-1"
             {| StatusCode := 500; Status := "500 Internal Server Error";
                Body := "" |}).
    + reflexivity.
    + reflexivity.
    + vm_compute; reflexivity.
    + vm_compute; reflexivity.
    + reflexivity.
    + simpl; lia.
  - apply (C7_save_halts_commit_continues
             sample_RequestErrorMessage sample_ResponseErrorMessage
             sample_unmarshalImageCommit sample_unmarshalImageSave
             sample_endpoint_parses commit_fails
             (sample_config true false) (deployed_world (sample_config true false))
             "vm-1" "tok-1"
             {| StatusCode := 500; Status := "500 Internal Server Error";
                Body := "" |}).
    + reflexivity.
    + reflexivity.
    + vm_compute; reflexivity.
    + vm_compute; reflexivity.
    + reflexivity.
    + simpl; lia.
Defined.

(** C8 at the healthy run. *)
Lemma C8_deploy_response_published_witness :
  let config := sample_config false false in
  let run := sample_Run always_healthy config initial_world in
  fst run = Done ActionContinue /\
  bag (snd run) !! "vmid" = Some (VString "vm-1") /\
  bag (snd run) !! "ssh_host" = Some (VString "10.0.0.5") /\
  bag (snd run) !! "ssh_port" = Some (VInt 2222).
Proof.
  apply (C8_deploy_response_published
           sample_RequestErrorMessage sample_ResponseErrorMessage
           sample_unmarshalTokenLogin sample_unmarshalVMDeploy
           sample_endpoint_parses always_healthy
           (sample_config false false) initial_world
           (vmDeployRequest (sample_config false false) "tok-1")
           (response 200 "200 OK" "deploy-body")
           {| StatusCode := 200; Status := "200 OK"; Body := "deploy-body" |}).
  - reflexivity.
  - vm_compute; reflexivity.
  - reflexivity.
  - reflexivity.
  - reflexivity.
  - reflexivity.
Defined.

(** C9 at the cleanup of a failed run with pre-copy. *)
Lemma C9_no_delete_no_request_witness :
  let config := sample_config true true in
  let w := snd (sample_Run create_fails config initial_world) in
  NoDeleteVM config = true /\
  failed (orkaCreate w) = true /\
  issued w (snd (sample_Cleanup create_fails config w)) = [] /\
  trace (snd (sample_Cleanup create_fails config w)) = trace w.
Proof.
  split; [reflexivity|]. split; [vm_compute; reflexivity|].
  apply (C9_no_delete_no_request
           sample_RequestErrorMessage sample_ResponseErrorMessage
           sample_endpoint_parses create_fails
           (sample_config true true)).
  reflexivity.
Defined.

(** C10 at a login that does not reach the API, with [NoDeleteVM] set. *)
Lemma C10_cleanup_panics_after_failed_login_witness :
  let config := sample_config false true in
  let run := sample_Run login_unreachable config initial_world in
  fst run = Done ActionHalt /\
  bag (snd run) !! "token" = None /\
  exists msg, sample_Cleanup login_unreachable config (snd run)
              = (Panic msg, snd run).
Proof.
  apply (C10_cleanup_panics_after_failed_login
           sample_RequestErrorMessage sample_ResponseErrorMessage
           sample_unmarshalTokenLogin sample_unmarshalVMDeploy
           sample_endpoint_parses login_unreachable
           (sample_config false true) initial_world).
  - reflexivity.
  - reflexivity.
  - vm_compute. eexists. reflexivity.
Defined.

(** ** The further theorems at the sample runs *)

(** X3 at a run whose image copy is answered with 500. *)
Lemma Run_halt_is_never_silent_witness :
  let run := sample_Run copy_fails (sample_config true false) initial_world in
  fst run = Done ActionHalt /\
  ((exists msg, last (ui (snd run)) = Some (UiError msg)) \/
   (exists e, bag (snd run) !! "error" = Some (VError e))).
Proof.
  split; [vm_compute; reflexivity|].
  apply (Run_halt_is_never_silent
           sample_RequestErrorMessage sample_ResponseErrorMessage
           sample_unmarshalTokenLogin sample_unmarshalVMDeploy
           sample_endpoint_parses copy_fails
           (sample_config true false) initial_world).
  vm_compute; reflexivity.
Defined.

(** X4 at a run whose deploy call does not reach the API. *)
Lemma Run_panic_causes_witness :
  let config := sample_config false false in
  let run := sample_Run deploy_unreachable config initial_world in
  fst run = Panic nil_dereference /\
  ((sample_endpoint_parses (OrkaEndpoint config) = false /\
    issued initial_world (snd run) = []) \/
   (exists req err,
      last (trace (snd run)) = Some (req, DoErr err) /\
      is_deploy req = true)) /\
  List.filter is_UiError (ui (snd run)) =
    List.filter is_UiError (ui initial_world).
Proof.
  split; [vm_compute; reflexivity|].
  apply (Run_panic_causes
           sample_RequestErrorMessage sample_ResponseErrorMessage
           sample_unmarshalTokenLogin sample_unmarshalVMDeploy
           sample_endpoint_parses deploy_unreachable
           (sample_config false false) initial_world nil_dereference).
  vm_compute; reflexivity.
Defined.

(** X5 at a run whose VM create call does not reach the API. *)
Lemma Run_halt_sets_failed_unless_create_unreachable_witness :
  let run :=
    sample_Run create_unreachable (sample_config false false) initial_world in
  fst run = Done ActionHalt /\
  (failed (orkaCreate (snd run)) = true \/
   (orkaCreate (snd run) = orkaCreate initial_world /\
    bag (snd run) !! "error" = bag initial_world !! "error" /\
    exists req r,
      last (trace (snd run)) = Some (req, r) /\
      is_create req = true /\ is_Some (do_err r))).
Proof.
  split; [vm_compute; reflexivity|].
  apply (Run_halt_sets_failed_unless_create_unreachable
           sample_RequestErrorMessage sample_ResponseErrorMessage
           sample_unmarshalTokenLogin sample_unmarshalVMDeploy
           sample_endpoint_parses create_unreachable
           (sample_config false false) initial_world).
  vm_compute; reflexivity.
Defined.

(** X6 at the healthy run with pre-copy. *)
Lemma Run_continue_publishes_witness :
  let run := sample_Run always_healthy (sample_config true false) initial_world in
  exists req r resp token,
    last (trace (snd run)) = Some (req, r) /\
    is_deploy req = true /\
    do_resp r = Some resp /\
    StatusCode resp = 200%Z /\
    bag (snd run) !! "token" = Some (VString token) /\
    bag (snd run) !! "vmid" =
      Some (VString (VMId (sample_unmarshalVMDeploy (Body resp)))) /\
    bag (snd run) !! "ssh_host" =
      Some (VString (IP (sample_unmarshalVMDeploy (Body resp)))) /\
    bag (snd run) !! "ssh_port" =
      Some (VInt (fst (Atoi (SSHPort (sample_unmarshalVMDeploy (Body resp)))))) /\
    bag (snd run) !! "error" = bag initial_world !! "error" /\
    orkaCreate (snd run) = orkaCreate initial_world.
Proof.
  apply (Run_continue_publishes
           sample_RequestErrorMessage sample_ResponseErrorMessage
           sample_unmarshalTokenLogin sample_unmarshalVMDeploy
           sample_endpoint_parses always_healthy
           (sample_config true false) initial_world).
  vm_compute; reflexivity.
Defined.

(** X7 at the healthy run. *)
Lemma Run_stored_port_in_range_witness :
  let run := sample_Run always_healthy (sample_config false false) initial_world in
  exists n,
    bag (snd run) !! "ssh_port" = Some (VInt n) /\
    (- 2 ^ 63 <= n <= 2 ^ 63 - 1)%Z.
Proof.
  apply (Run_stored_port_in_range
           sample_RequestErrorMessage sample_ResponseErrorMessage
           sample_unmarshalTokenLogin sample_unmarshalVMDeploy
           sample_endpoint_parses always_healthy
           (sample_config false false) initial_world).
  vm_compute; reflexivity.
Defined.

(** X8 at a deploy answered with 200 and a body that carries no port. *)
Lemma Run_unparsable_port_stored_as_zero_witness :
  let run :=
    sample_Run deploy_without_id (sample_config false false) initial_world in
  snd (Atoi (SSHPort (sample_unmarshalVMDeploy ""))) = Some ErrSyntax /\
  fst run = Done ActionContinue /\
  bag (snd run) !! "ssh_port" = Some (VInt 0).
Proof.
  split; [reflexivity|].
  apply (Run_unparsable_port_stored_as_zero
           sample_RequestErrorMessage sample_ResponseErrorMessage
           sample_unmarshalTokenLogin sample_unmarshalVMDeploy
           sample_endpoint_parses deploy_without_id
           (sample_config false false) initial_world
           (vmDeployRequest (sample_config false false) "tok-1")
           (response 200 "200 OK" "")
           {| StatusCode := 200; Status := "200 OK"; Body := "" |}).
  - reflexivity.
  - vm_compute; reflexivity.
  - reflexivity.
  - reflexivity.
  - reflexivity.
  - reflexivity.
Defined.

(** X9 at the healthy run and the key the runner uses for a halted build. *)
Lemma Run_writes_its_keys_only_witness :
  let w := with_bag (insert "halted" (VBool true)) initial_world in
  bag (snd (sample_Run always_healthy (sample_config true false) w))
    !! "halted" = bag w !! "halted".
Proof.
  apply (Run_writes_its_keys_only
           sample_RequestErrorMessage sample_ResponseErrorMessage
           sample_unmarshalTokenLogin sample_unmarshalVMDeploy
           sample_endpoint_parses always_healthy (sample_config true false)).
  unfold Run_keys.
  repeat (apply not_elem_of_cons; split; [discriminate|]).
  apply not_elem_of_nil.
Defined.

(** X10 at the cleanup of the healthy run. *)
Lemma Cleanup_success_path_purges_once_witness :
  let config := sample_config false false in
  let w := deployed_world config in
  issued w (snd (sample_Cleanup always_healthy config w)) =
    [vmPurgeRequest config "tok-1"] /\
  Method (vmPurgeRequest config "tok-1") = "DELETE" /\
  ReqBody (vmPurgeRequest config "tok-1") =
    VMPurgeRequest (OrkaVMBuilderName config) /\
  Header (vmPurgeRequest config "tok-1") =
    [json_header; bearer_header "tok-1"].
Proof.
  apply (Cleanup_success_path_purges_once
           sample_RequestErrorMessage sample_ResponseErrorMessage
           sample_endpoint_parses always_healthy (sample_config false false)
           (deployed_world (sample_config false false)) "tok-1").
  - reflexivity.
  - reflexivity.
  - vm_compute; reflexivity.
  - vm_compute; reflexivity.
Defined.

(** X13 at the cleanup whose purge does not reach the API. *)
Lemma Cleanup_panic_causes_witness :
  let config := sample_config false false in
  let w := deployed_world config in
  let clean := sample_Cleanup purge_unreachable config w in
  fst clean = Panic nil_dereference /\
  ((forall token, bag w !! "token" <> Some (VString token)) \/
   sample_endpoint_parses (OrkaEndpoint config) = false \/
   exists req err,
     last (trace (snd clean)) = Some (req, DoErr err) /\
     is_purge req = true).
Proof.
  split; [vm_compute; reflexivity|].
  apply (Cleanup_panic_causes
           sample_RequestErrorMessage sample_ResponseErrorMessage
           sample_endpoint_parses purge_unreachable
           (sample_config false false)
           (deployed_world (sample_config false false)) nil_dereference).
  vm_compute; reflexivity.
Defined.

(** X14 at the healthy run. *)
Lemma Run_continue_then_Cleanup_purges_witness :
  let config := sample_config false false in
  let run := sample_Run always_healthy config initial_world in
  exists token,
    bag (snd run) !! "token" = Some (VString token) /\
    issued (snd run) (snd (sample_Cleanup always_healthy config (snd run))) =
      [vmPurgeRequest config token].
Proof.
  apply (Run_continue_then_Cleanup_purges
           sample_RequestErrorMessage sample_ResponseErrorMessage
           sample_unmarshalTokenLogin sample_unmarshalVMDeploy
           sample_endpoint_parses always_healthy
           (sample_config false false) initial_world).
  - reflexivity.
  - reflexivity.
  - vm_compute; reflexivity.
Defined.

(** X15 at a run whose VM create call does not reach the API. *)
Lemma create_unreachable_then_Cleanup_purges_witness :
  let config := sample_config false false in
  let run := sample_Run create_unreachable config initial_world in
  fst run = Done ActionHalt /\
  failed (orkaCreate (snd run)) = false /\
  map ReqBody
      (issued (snd run)
              (snd (sample_Cleanup create_unreachable config (snd run)))) =
    [VMPurgeRequest (OrkaVMBuilderName config)].
Proof.
  apply (create_unreachable_then_Cleanup_purges
           sample_RequestErrorMessage sample_ResponseErrorMessage
           sample_unmarshalTokenLogin sample_unmarshalVMDeploy
           sample_endpoint_parses create_unreachable
           (sample_config false false) initial_world
           (vmCreateConfigRequest (sample_config false false)
                                  "tok-1" "base.img")
           (DoErr refused)).
  - reflexivity.
  - reflexivity.
  - reflexivity.
  - vm_compute; reflexivity.
  - reflexivity.
  - eexists; reflexivity.
Defined.

(** X16 at a run whose deploy call is answered with 500. *)
Lemma deploy_refused_then_Cleanup_leaves_the_VM_witness :
  let config := sample_config false false in
  let run := sample_Run deploy_fails config initial_world in
  fst run = Done ActionHalt /\
  failed (orkaCreate (snd run)) = true /\
  fst (sample_Cleanup deploy_fails config (snd run)) = Done tt /\
  issued (snd run) (snd (sample_Cleanup deploy_fails config (snd run))) = [].
Proof.
  apply (deploy_refused_then_Cleanup_leaves_the_VM
           sample_RequestErrorMessage sample_ResponseErrorMessage
           sample_unmarshalTokenLogin sample_unmarshalVMDeploy
           sample_endpoint_parses deploy_fails
           (sample_config false false) initial_world
           (vmDeployRequest (sample_config false false) "tok-1")
           (response 500 "500 Internal Server Error" "")
           {| StatusCode := 500; Status := "500 Internal Server Error";
              Body := "" |}).
  - reflexivity.
  - reflexivity.
  - vm_compute; reflexivity.
  - reflexivity.
  - reflexivity.
  - simpl; lia.
Defined.

(** X17 at the state a healthy run leaves, with image creation off. *)
Lemma CreateImage_Run_skipped_witness :
  let config := sample_config_no_image in
  let w := deployed_world config in
  let out := sample_CreateImage_Run always_healthy config w in
  (trace (snd out) = trace w /\ bag (snd out) = bag w) /\
  fst out = Done ActionContinue /\
  List.filter is_UiError (ui (snd out)) = List.filter is_UiError (ui w).
Proof.
  destruct (CreateImage_Run_skipped
              sample_RequestErrorMessage sample_ResponseErrorMessage
              sample_unmarshalImageCommit sample_unmarshalImageSave
              sample_endpoint_parses always_healthy sample_config_no_image
              (deployed_world sample_config_no_image) eq_refl)
    as (Htrace & Hbag & Hres).
  split; [split; [exact Htrace | exact Hbag]|].
  apply (Hres "vm-1" "tok-1"); vm_compute; reflexivity.
Defined.

(** X18 at the save and at the commit of a healthy build. *)
Lemma CreateImage_Run_one_call_witness :
  let config := sample_config true false in
  let w := deployed_world config in
  let out := sample_CreateImage_Run always_healthy config w in
  issued w (snd out) = [imageCommitRequest config "vm-1" "tok-1"] /\
  (exists action, fst out = Done action) /\
  bag (snd out) = bag w /\
  orkaCreate (snd out) = orkaCreate w.
Proof.
  apply (CreateImage_Run_one_call
           sample_RequestErrorMessage sample_ResponseErrorMessage
           sample_unmarshalImageCommit sample_unmarshalImageSave
           sample_endpoint_parses always_healthy (sample_config true false)
           (deployed_world (sample_config true false)) "vm-1" "tok-1").
  - reflexivity.
  - reflexivity.
  - vm_compute; reflexivity.
  - vm_compute; reflexivity.
Defined.

(** X19 at a save that does not reach the API. *)
Lemma CreateImage_Run_unreachable_halts_witness :
  let config := sample_config false false in
  let out :=
    sample_CreateImage_Run image_unreachable config (deployed_world config) in
  fst out = Done ActionHalt /\
  last (ui (snd out)) =
    Some (UiError (bracket sample_RequestErrorMessage refused)).
Proof.
  apply (CreateImage_Run_unreachable_halts
           sample_RequestErrorMessage sample_ResponseErrorMessage
           sample_unmarshalImageCommit sample_unmarshalImageSave
           sample_endpoint_parses image_unreachable (sample_config false false)
           (deployed_world (sample_config false false)) "vm-1" "tok-1"
           refused).
  - reflexivity.
  - reflexivity.
  - vm_compute; reflexivity.
  - vm_compute; reflexivity.
  - reflexivity.
Defined.

(** X20 at the save of a healthy build. *)
Lemma CreateImage_Run_status_200_continues_witness :
  let config := sample_config false false in
  let w := deployed_world config in
  let out := sample_CreateImage_Run always_healthy config w in
  fst out = Done ActionContinue /\
  List.filter is_UiError (ui (snd out)) = List.filter is_UiError (ui w).
Proof.
  apply (CreateImage_Run_status_200_continues
           sample_RequestErrorMessage sample_ResponseErrorMessage
           sample_unmarshalImageCommit sample_unmarshalImageSave
           sample_endpoint_parses always_healthy (sample_config false false)
           (deployed_world (sample_config false false)) "vm-1" "tok-1"
           {| StatusCode := 200; Status := "200 OK"; Body := "" |}).
  - reflexivity.
  - reflexivity.
  - vm_compute; reflexivity.
  - vm_compute; reflexivity.
  - reflexivity.
  - reflexivity.
Defined.

(** X21 at a save answered with 500: the step halts, its cleanup returns. *)
Lemma CreateImage_Cleanup_after_Run_witness :
  let config := sample_config false false in
  let w := deployed_world config in
  let out := sample_CreateImage_Run save_fails config w in
  fst out = Done ActionHalt /\
  fst (stepCreateImage_Cleanup (snd out)) = Done tt /\
  trace (snd (stepCreateImage_Cleanup (snd out))) = trace (snd out) /\
  bag (snd (stepCreateImage_Cleanup (snd out))) = bag w.
Proof.
  split; [vm_compute; reflexivity|].
  apply (CreateImage_Cleanup_after_Run
           sample_RequestErrorMessage sample_ResponseErrorMessage
           sample_unmarshalImageCommit sample_unmarshalImageSave
           sample_endpoint_parses save_fails (sample_config false false)
           (deployed_world (sample_config false false)) ActionHalt).
  vm_compute; reflexivity.
Defined.

(** X22 at the healthy run followed by a save answered with 500. *)
Lemma Run_continue_then_CreateImage_Run_returns_witness :
  let config := sample_config false false in
  let run := sample_Run save_fails config initial_world in
  exists action,
    fst (sample_CreateImage_Run save_fails config (snd run)) = Done action.
Proof.
  apply (Run_continue_then_CreateImage_Run_returns
           sample_RequestErrorMessage sample_ResponseErrorMessage
           sample_unmarshalTokenLogin sample_unmarshalVMDeploy
           sample_unmarshalImageCommit sample_unmarshalImageSave
           sample_endpoint_parses save_fails
           (sample_config false false) initial_world).
  vm_compute; reflexivity.
Defined.

(** X23 at the cleanup of a failed run with pre-copy. *)
Lemma Cleanup_failure_path_returns_witness :
  let config := sample_config true false in
  let w := snd (sample_Run create_fails config initial_world) in
  fst (sample_Cleanup create_fails config w) = Done tt /\
  Forall (fun req => is_purge req = false)
         (issued w (snd (sample_Cleanup create_fails config w))).
Proof.
  apply (Cleanup_failure_path_returns
           sample_RequestErrorMessage sample_ResponseErrorMessage
           sample_endpoint_parses create_fails (sample_config true false)
           (snd (sample_Run create_fails (sample_config true false)
                            initial_world)) "tok-1").
  - reflexivity.
  - reflexivity.
  - vm_compute; reflexivity.
  - vm_compute; reflexivity.
Defined.

(** X24 at the cleanup of a failed run with pre-copy, when the image delete
    does not reach the API. *)
Lemma Cleanup_failed_delete_is_reported_witness :
  let config := sample_config true false in
  let w := snd (sample_Run create_fails config initial_world) in
  let clean := sample_Cleanup delete_unreachable config w in
  last (ui (snd clean)) =
    Some (UiError (bracket sample_RequestErrorMessage refused)) /\
  bag (snd clean) !! "error" = Some (VError refused).
Proof.
  exact (Cleanup_failed_delete_is_reported
           sample_RequestErrorMessage sample_ResponseErrorMessage
           sample_endpoint_parses delete_unreachable (sample_config true false)
           (snd (sample_Run create_fails (sample_config true false)
                            initial_world)) "tok-1"
           eq_refl
           eq_refl
           ltac:(vm_compute; reflexivity)
           eq_refl
           ltac:(vm_compute; reflexivity)).
Defined.

(** X25 at an endpoint that starts with a space. *)
Lemma Run_unparsable_endpoint_panics_witness :
  let config := sample_config_bad_endpoint in
  let run := sample_Run always_healthy config initial_world in
  (exists msg, fst run = Panic msg) /\
  issued initial_world (snd run) = [] /\
  bag (snd run) = bag initial_world /\
  orkaCreate (snd run) = orkaCreate initial_world /\
  List.filter is_UiError (ui (snd run)) =
    List.filter is_UiError (ui initial_world).
Proof.
  apply (Run_unparsable_endpoint_panics
           sample_RequestErrorMessage sample_ResponseErrorMessage
           sample_unmarshalTokenLogin sample_unmarshalVMDeploy
           sample_endpoint_parses always_healthy
           sample_config_bad_endpoint initial_world).
  reflexivity.
Defined.

(** X26 at the state a healthy run leaves, cleaned up with an endpoint that
    starts with a space. *)
Lemma Cleanup_unparsable_endpoint_panics_witness :
  let config := sample_config_bad_endpoint in
  let w := deployed_world (sample_config false false) in
  let clean := sample_Cleanup always_healthy config w in
  (exists msg, fst clean = Panic msg) /\
  issued w (snd clean) = [] /\
  List.filter is_UiError (ui (snd clean)) = List.filter is_UiError (ui w).
Proof.
  apply (Cleanup_unparsable_endpoint_panics
           sample_RequestErrorMessage sample_ResponseErrorMessage
           sample_endpoint_parses always_healthy
           sample_config_bad_endpoint
           (deployed_world (sample_config false false)) "tok-1").
  - reflexivity.
  - reflexivity.
  - vm_compute; reflexivity.
  - vm_compute; reflexivity.
Defined.
